(** * Review Board: replies to file attachment comments

    A shallow embedding of
    [reviewboard/webapi/resources/review_reply_file_attachment_comment.py]
    (class [ReviewReplyFileAttachmentCommentResource]): the scoped list
    query [get_queryset] and the two handlers [create] and [update], run
    against an explicit relational store.  The handlers thread the store
    through every call; each write also leaves an entry in a log, so that
    "this method was not called" is a statement about the final store. *)

From Stdlib Require Import Ascii String.
From stdpp Require Import gmap strings list fin_maps pretty.

Set Default Proof Using "Type".

(** ** Data model *)

(** The [text_type] field of a comment: ['plain'] or ['markdown']. *)
Inductive TextType := Plain | Markdown.

#[global] Instance TextType_eq_dec : EqDecision TextType.
Proof. solve_decision. Defined.

(** A row of the review table.  A reply is a review whose [base_reply_to]
    names the review it answers. *)
Record Review := mkReview {
  review_request : nat;
  base_reply_to : option nat;
  user : nat;
  public : bool
}.

#[global] Instance Review_eq_dec : EqDecision Review.
Proof. solve_decision. Defined.

(** A row of the file attachment comment table.  Original comments and
    replies live in the same table; a reply has [reply_to] set. *)
Record FileAttachmentComment := mkComment {
  file_attachment : nat;
  reply_to : option nat;
  text : string;
  text_type : TextType
}.

#[global] Instance FileAttachmentComment_eq_dec : EqDecision FileAttachmentComment.
Proof. solve_decision. Defined.

(** A model instance held by a handler: the row and its primary key, which
    is [None] until the instance has been saved. *)
Record Comment := mkInstance {
  pk : option nat;
  row : FileAttachmentComment
}.

#[global] Instance Comment_eq_dec : EqDecision Comment.
Proof. solve_decision. Defined.

(** Writes, in the order they were issued. *)
Inductive Event :=
  | CommentSaved (comment_pk : nat)
  | CollectionAdded (reply_pk comment_pk : nat)
  | ReviewSaved (reply_pk : nat).

#[global] Instance Event_eq_dec : EqDecision Event.
Proof. solve_decision. Defined.

(** The store.  [file_attachment_comments] is the many-to-many relation
    behind [Review.file_attachment_comments]; seen from a comment it is
    the [review] lookup used in the filters. *)
Record DB := mkDB {
  review_requests : gset nat;
  reviews : gmap nat Review;
  comments : gmap nat FileAttachmentComment;
  file_attachment_comments : gset (nat * nat);
  log : list Event
}.

(** The identifiers taken from the URL and the parsed request fields: the
    [**kwargs] of the handlers. *)
Record Kwargs := mkKwargs {
  review_request_id : nat;
  review_id : nat;
  reply_id : nat;
  kw_text : option string;
  kw_text_type : option TextType
}.

Record Request := mkRequest { request_user : nat }.

(** What [QuerySet.get] does: one row, or one of its two exceptions. *)
Inductive GetResult :=
  | Found (c : Comment)
  | DoesNotExist
  | MultipleObjectsReturned.

(** What a handler returns. *)
Inductive Response :=
  | DOES_NOT_EXIST
  | PERMISSION_DENIED
  | INVALID_FORM_DATA (fields : list (string * list string))
  | Result (status : nat) (item : Comment) (headers : list (string * string))
  | Uncaught (exception : string).

(** Modelled from the spec: the HTTP status of each response (section 6).
    The table itself belongs to the web API framework. *)
Definition http_status (r : Response) : nat :=
  match r with
  | DOES_NOT_EXIST => 404
  | PERMISSION_DENIED => 403
  | INVALID_FORM_DATA _ => 400
  | Result status _ _ => status
  | Uncaught _ => 500
  end.

(** ** Collaborators supplied from outside the resource *)

(** The permission predicate of the reply resource, the URL builder and the
    Markdown escaper are injected. *)
Class Collaborators := {
  has_modify_permissions : Request → nat * Review → bool;
  get_href : Comment → Request → Kwargs → string;
  markdown_escape : string → string;
  markdown_unescape : string → string
}.

(** ** Query sets *)

Definition instance_of (entry : nat * FileAttachmentComment) : Comment :=
  mkInstance (Some entry.1) entry.2.

(** Modelled from the spec: the base query set of the comment store, every
    stored file attachment comment ([super().get_queryset] is not part of
    this file). *)
Definition objects (db : DB) : list Comment :=
  instance_of <$> map_to_list (comments db).

(** [review=review_pk], optionally joined with a condition on that review
    row: the comment is in the collection of the review [review_pk], and
    that review satisfies [cond]. *)
Definition in_review (db : DB) (review_pk : nat) (cond : Review → Prop)
    (c : Comment) : Prop :=
  match pk c, reviews db !! review_pk with
  | Some k, Some r => (review_pk, k) ∈ file_attachment_comments db ∧ cond r
  | _, _ => False
  end.

#[global] Instance in_review_dec db review_pk cond
  `{∀ r, Decision (cond r)} c : Decision (in_review db review_pk cond c).
Proof. unfold in_review. destruct (pk c), (reviews db !! review_pk); apply _. Defined.

(** [review=reply] alone needs no join with the review table. *)
Definition in_collection (db : DB) (review_pk : nat) (c : Comment) : Prop :=
  match pk c with
  | Some k => (review_pk, k) ∈ file_attachment_comments db
  | None => False
  end.

#[global] Instance in_collection_dec db review_pk c :
  Decision (in_collection db review_pk c).
Proof. unfold in_collection. destruct (pk c); apply _. Defined.

(** [get_queryset]:
    [q.filter(review=reply_id, review__base_reply_to=review_id)]. *)
Definition get_queryset (db : DB) (review_id reply_id : nat) : list Comment :=
  filter (in_review db reply_id (λ r, base_reply_to r = Some review_id))
         (objects db).

(** [QuerySet.get()]. *)
Definition q_get (q : list Comment) : GetResult :=
  match q with
  | [] => DoesNotExist
  | [c] => Found c
  | _ => MultipleObjectsReturned
  end.

(** ** Lookups of the sibling resources *)

(** Modelled from the spec: [resources.review_request.get_object], which
    resolves the review request named in the path. *)
Definition review_request_get_object (db : DB) (kw : Kwargs) : option nat :=
  if decide (review_request_id kw ∈ review_requests db)
  then Some (review_request_id kw) else None.

(** Modelled from the spec: [resources.review_reply.get_object], which
    resolves the reply named in the path, a reply to the parent review of
    the path on the review request of the path. *)
Definition review_reply_get_object (db : DB) (kw : Kwargs) : option (nat * Review) :=
  match reviews db !! reply_id kw with
  | Some r =>
      if decide (review_request r = review_request_id kw
                 ∧ base_reply_to r = Some (review_id kw))
      then Some (reply_id kw, r) else None
  | None => None
  end.

(** Modelled from the spec: [resources.review_file_attachment_comment.get_object],
    which resolves the original comment by ID among the comments of the
    parent review. *)
Definition review_file_attachment_comment_get_object
    (db : DB) (comment_id : nat) (kw : Kwargs) : option Comment :=
  match comments db !! comment_id with
  | Some c =>
      if decide ((review_id kw, comment_id) ∈ file_attachment_comments db)
      then Some (mkInstance (Some comment_id) c) else None
  | None => None
  end.

(** [self.get_object]: the row of [get_queryset] with the given primary
    key. *)
Definition get_object (db : DB) (comment_id : nat) (kw : Kwargs) : GetResult :=
  q_get (filter (λ c, pk c = Some comment_id)
                (get_queryset db (review_id kw) (reply_id kw))).

(** ** Writes *)

Definition set_comments (db : DB) (m : gmap nat FileAttachmentComment) : DB :=
  mkDB (review_requests db) (reviews db) m (file_attachment_comments db) (log db).

Definition set_reviews (db : DB) (m : gmap nat Review) : DB :=
  mkDB (review_requests db) m (comments db) (file_attachment_comments db) (log db).

Definition set_file_attachment_comments (db : DB) (s : gset (nat * nat)) : DB :=
  mkDB (review_requests db) (reviews db) (comments db) s (log db).

Definition record (db : DB) (e : Event) : DB :=
  mkDB (review_requests db) (reviews db) (comments db)
       (file_attachment_comments db) (log db ++ [e]).

(** [reply.file_attachment_comments.add(comment)]. *)
Definition collection_add (db : DB) (reply_pk comment_pk : nat) : DB :=
  record (set_file_attachment_comments db
            ({[ (reply_pk, comment_pk) ]} ∪ file_attachment_comments db))
         (CollectionAdded reply_pk comment_pk).

(** [reply.save()], and [save()] on a review in general: the row is
    written back. *)
Definition review_save (db : DB) (reply : nat * Review) : DB :=
  record (set_reviews db (<[reply.1 := reply.2]> (reviews db)))
         (ReviewSaved reply.1).

(** The draft reviews whose collection holds comment [k], each with its
    row. *)
Definition draft_holders (db : DB) (k : nat) : list (nat * Review) :=
  filter (λ entry, (entry.1, k) ∈ file_attachment_comments db
                   ∧ public entry.2 = false)
         (map_to_list (reviews db)).

(** Modelled from the spec: the store after [comment.save()] on a comment
    that has the primary key [k].  [save] is a method of the comment
    model, which is not part of this file: it writes the row of the
    comment (section 4.1, side effects) and then, as the comment model
    does on every save, saves the review that holds the comment if that
    review is a draft. *)
Definition saved (db : DB) (k : nat) (r : FileAttachmentComment) : DB :=
  foldl review_save
        (record (set_comments db (<[k := r]> (comments db))) (CommentSaved k))
        (draft_holders db k).

(** Modelled from the spec: [comment.save()].  A saved instance overwrites
    its own row, see [saved].  An unsaved instance is inserted under a
    primary key no stored comment has; no collection names a row that has
    just been inserted, so no review is saved with it. *)
Definition save (db : DB) (c : Comment) : Comment * DB :=
  match pk c with
  | Some k => (mkInstance (Some k) (row c), saved db k (row c))
  | None =>
      let k := fresh (dom (comments db)) in
      (mkInstance (Some k) (row c),
       record (set_comments db (<[k := row c]> (comments db))) (CommentSaved k))
  end.

(** [self.model(file_attachment=..., reply_to=comment)]: a fresh, unsaved
    instance, with empty plain text. *)
Definition model (file_attachment : nat) (reply_to : Comment) : Comment :=
  mkInstance None (mkComment file_attachment (pk reply_to) "" Plain).

(** Modelled from the spec: [_no_access_error].  The handlers run behind
    [webapi_login_required], so the caller has a session and the refusal
    is the permission-denied error. *)
Definition _no_access_error (request : Request) : Response := PERMISSION_DENIED.

Section Resource.

Context `{!Collaborators}.

(** Modelled from the spec: the text policy of the shared update routine, a
    function of the old type, the new type, the old text and the new text
    if any (section 9). *)
Definition normalize_text (old_type new_type : TextType) (old_text : string)
    (new_text : option string) : string :=
  match new_text with
  | Some t => t
  | None =>
      match old_type, new_type with
      | Plain, Markdown => markdown_escape old_text
      | Markdown, Plain => markdown_unescape old_text
      | _, _ => old_text
      end
  end.

(** Modelled from the spec: what the shared update routine makes of a row
    in reply mode.  The [text] and [text_type] request fields are applied;
    no other field is written. *)
Definition updated_row (old : FileAttachmentComment) (kw : Kwargs)
    : FileAttachmentComment :=
  let new_type := default (text_type old) (kw_text_type kw) in
  mkComment (file_attachment old) (reply_to old)
            (normalize_text (text_type old) new_type (text old) (kw_text kw))
            new_type.

(** Modelled from the spec: [update_comment] in reply mode, which is
    inherited from the base comment resource.  It applies the request
    fields and saves the comment. *)
Definition update_comment (db : DB) (c : Comment) (kw : Kwargs) : Comment * DB :=
  save db (mkInstance (pk c) (updated_row (row c) kw)).

(** ** The handlers *)

(** [create(self, request, reply_to_id, *args, **kwargs)].
    [self._get_queryset] is [get_queryset] on the identifiers of the path.
    The many-to-many [add] needs a primary key and raises [ValueError]
    without one; [update_comment] has saved the comment by then. *)
Definition create (db : DB) (request : Request) (reply_to_id : nat) (kw : Kwargs)
    : Response * DB :=
  match review_request_get_object db kw with
  | None => (DOES_NOT_EXIST, db)
  | Some _ =>
  match review_reply_get_object db kw with
  | None => (DOES_NOT_EXIST, db)
  | Some reply =>
  if negb (has_modify_permissions request reply)
  then (_no_access_error request, db)
  else
  match review_file_attachment_comment_get_object db reply_to_id kw with
  | None =>
      (INVALID_FORM_DATA
         [("reply_to_id", ["This is not a valid file comment ID"])], db)
  | Some comment =>
      let q := get_queryset db (review_id kw) (reply_id kw) in
      let q := filter (λ c, reply_to (row c) = pk comment
                            ∧ in_collection db reply.1 c) q in
      match q_get q with
      | MultipleObjectsReturned => (Uncaught "MultipleObjectsReturned", db)
      | Found new_comment =>
          (* is_new = False *)
          let '(new_comment, db) := update_comment db new_comment kw in
          (Result 303 new_comment
             [("Location", get_href new_comment request kw)], db)
      | DoesNotExist =>
          (* is_new = True *)
          let new_comment := model (file_attachment (row comment)) comment in
          let '(new_comment, db) := update_comment db new_comment kw in
          match pk new_comment with
          | None => (Uncaught "ValueError", db)
          | Some k =>
              let db := collection_add db reply.1 k in
              let db := review_save db reply in
              (Result 201 new_comment [], db)
          end
      end
  end
  end
  end.

(** [update(self, request, *args, **kwargs)].  The item URL adds
    [comment_id] to the keyword arguments; it is passed here on its own. *)
Definition update (db : DB) (request : Request) (comment_id : nat) (kw : Kwargs)
    : Response * DB :=
  match review_request_get_object db kw with
  | None => (DOES_NOT_EXIST, db)
  | Some _ =>
  match review_reply_get_object db kw with
  | None => (DOES_NOT_EXIST, db)
  | Some reply =>
  match get_object db comment_id kw with
  | DoesNotExist => (DOES_NOT_EXIST, db)
  | MultipleObjectsReturned => (Uncaught "MultipleObjectsReturned", db)
  | Found file_comment =>
      if negb (has_modify_permissions request reply)
      then (_no_access_error request, db)
      else
        let '(file_comment, db) := update_comment db file_comment kw in
        (Result 200 file_comment [], db)
  end
  end
  end.

(** A sequence of [create] calls, each on the store the previous one left. *)
Fixpoint create_all (db : DB) (calls : list (Request * nat * Kwargs)) : DB :=
  match calls with
  | [] => db
  | (request, reply_to_id, kw) :: rest =>
      create_all (create db request reply_to_id kw).2 rest
  end.

End Resource.

(** ** A concrete set of collaborators *)

Definition markdown_special (a : ascii) : bool :=
  bool_decide (a ∈ list_ascii_of_string "\`*_{}[]()#+-.!>").

Fixpoint backslash_escape (s : string) : string :=
  match s with
  | EmptyString => EmptyString
  | String a rest =>
      if markdown_special a
      then String "\" (String a (backslash_escape rest))
      else String a (backslash_escape rest)
  end.

Fixpoint backslash_unescape (s : string) : string :=
  match s with
  | EmptyString => EmptyString
  | String a rest =>
      match rest with
      | String b rest' =>
          if bool_decide (a = "\"%char) && markdown_special b
          then String b (backslash_unescape rest')
          else String a (backslash_unescape rest)
      | EmptyString => String a EmptyString
      end
  end.

(** Collaborators to run the handlers on examples: draft ownership as the
    permission, a path-shaped URL, and a backslash escaper standing in for
    the Markdown escaper, which is not part of this file. *)
Definition draft_owner : Collaborators := {|
  has_modify_permissions request reply :=
    negb (public reply.2) && bool_decide (user reply.2 = request_user request);
  get_href c request kw :=
    ("/api/review-requests/" +:+ pretty (review_request_id kw)
     +:+ "/reviews/" +:+ pretty (review_id kw)
     +:+ "/replies/" +:+ pretty (reply_id kw)
     +:+ "/file-attachment-comments/" +:+ from_option pretty "" (pk c) +:+ "/")%string;
  markdown_escape := backslash_escape;
  markdown_unescape := backslash_unescape
|}.

(** A store with one review request (1), a parent review (2) holding an
    original comment (7) on file attachment 4, and a draft reply (3) of
    user 9. *)
Definition db0 : DB := {|
  review_requests := {[ 1 ]};
  reviews := {[ 2 := mkReview 1 None 8 true; 3 := mkReview 1 (Some 2) 9 false ]};
  comments := {[ 7 := mkComment 4 None "looks *odd*" Plain ]};
  file_attachment_comments := {[ (2, 7) ]};
  log := []
|}.

(** The same store once user 9 has answered comment 7 in that reply. *)
Definition db1 : DB := {|
  review_requests := {[ 1 ]};
  reviews := {[ 2 := mkReview 1 None 8 true; 3 := mkReview 1 (Some 2) 9 false ]};
  comments := {[ 7 := mkComment 4 None "looks *odd*" Plain;
                 8 := mkComment 4 (Some 7) "agreed *here*" Plain ]};
  file_attachment_comments := {[ (2, 7); (3, 8) ]};
  log := [CommentSaved 8; CollectionAdded 3 8; ReviewSaved 3]
|}.

(** A store that breaks the invariant below: the reply 3 holds two
    answers, 8 and 9, to comment 7. *)
Definition db_twice : DB := {|
  review_requests := {[ 1 ]};
  reviews := {[ 2 := mkReview 1 None 8 true; 3 := mkReview 1 (Some 2) 9 false ]};
  comments := {[ 7 := mkComment 4 None "looks *odd*" Plain;
                 8 := mkComment 4 (Some 7) "agreed *here*" Plain;
                 9 := mkComment 4 (Some 7) "agreed" Plain ]};
  file_attachment_comments := {[ (2, 7); (3, 8); (3, 9) ]};
  log := []
|}.

Definition owner : Request := mkRequest 9.
Definition stranger : Request := mkRequest 5.

Definition reply3 : nat * Review := (3, mkReview 1 (Some 2) 9 false).
Definition original7 : Comment :=
  mkInstance (Some 7) (mkComment 4 None "looks *odd*" Plain).
Definition answer8 : FileAttachmentComment :=
  mkComment 4 (Some 7) "agreed *here*" Plain.

Definition kw0 : Kwargs := mkKwargs 1 2 3 (Some "agreed *here*") None.
Definition kw_markdown : Kwargs := mkKwargs 1 2 3 None (Some Markdown).
Definition kw_elsewhere : Kwargs := mkKwargs 6 2 3 (Some "agreed") None.

(** ** The invariant of the store *)

(** Comment [k] is a stored reply to [original] held by the review
    [review_pk]. *)
Definition is_reply_for (db : DB) (review_pk original k : nat) : Prop :=
  match comments db !! k with
  | Some c => reply_to c = Some original
              ∧ (review_pk, k) ∈ file_attachment_comments db
  | None => False
  end.

#[global] Instance is_reply_for_dec db review_pk original k :
  Decision (is_reply_for db review_pk original k).
Proof. unfold is_reply_for. destruct (comments db !! k); apply _. Defined.

(** At most one reply comment per (review, reply_to) pair. *)
Definition one_reply_per_pair (db : DB) : Prop :=
  ∀ review_pk original k1 k2,
    is_reply_for db review_pk original k1 →
    is_reply_for db review_pk original k2 → k1 = k2.

(** Every comment a collection names is stored. *)
Definition collections_stored (db : DB) : Prop :=
  ∀ review_pk k,
    (review_pk, k) ∈ file_attachment_comments db → is_Some (comments db !! k).

Definition consistent (db : DB) : Prop :=
  collections_stored db ∧ one_reply_per_pair db.

(** The writes issued between two stores. *)
Definition new_events (before after : DB) : list Event :=
  drop (length (log before)) (log after).


(** ** Requests in sequence *)

(** The keyword arguments of another request on the same path, with its
    own request fields. *)
Definition with_fields (kw : Kwargs) (new_text : option string)
    (new_type : option TextType) : Kwargs :=
  mkKwargs (review_request_id kw) (review_id kw) (reply_id kw) new_text new_type.

(** A POST on the list resource or a PUT on an item resource. *)
Inductive Call :=
  | Create (request : Request) (reply_to_id : nat) (kw : Kwargs)
  | Update (request : Request) (comment_id : nat) (kw : Kwargs).

Definition call `{!Collaborators} (db : DB) (c : Call) : Response * DB :=
  match c with
  | Create request reply_to_id kw => create db request reply_to_id kw
  | Update request comment_id kw => update db request comment_id kw
  end.

(** What [webapi_request_fields] lets through to the body: a POST carries
    the required [text]; the fields of a PUT are all optional. *)
Definition has_required_fields (c : Call) : Prop :=
  match c with
  | Create _ _ kw => is_Some (kw_text kw)
  | Update _ _ _ => True
  end.

#[global] Instance has_required_fields_dec c : Decision (has_required_fields c).
Proof. destruct c; apply _. Defined.

(** The calls one after the other, each on the store the previous one
    left, with the answers in order. *)
Fixpoint run `{!Collaborators} (db : DB) (calls : list Call)
    : list Response * DB :=
  match calls with
  | [] => ([], db)
  | c :: rest =>
      let '(answer, db) := call db c in
      let '(answers, db) := run db rest in
      (answer :: answers, db)
  end.

(** ** The field table of the resource *)

(** An entry of a [fields] table: the type, by name, and the description. *)
Record FieldInfo := mkField {
  field_type : string;
  description : string
}.

(** [fields = dict({'reply_to': {...}}, **BaseFileAttachmentCommentResource.fields)]:
    the entry given here, then every entry of the base table written over
    it.  The base table is not part of this file and is a parameter. *)
Definition fields (base : gmap string FieldInfo) : gmap string FieldInfo :=
  base ∪ {[ "reply_to" :=
              mkField "ReviewFileAttachmentCommentResource"
                      "The comment being replied to." ]}.

(** ** Query sets: what they contain *)

#[global] Instance instance_of_inj : Inj (=) (=) instance_of.
Proof. intros [k1 c1] [k2 c2]. unfold instance_of. simpl. congruence. Qed.

Lemma elem_of_objects db c :
  c ∈ objects db ↔ ∃ k r, c = mkInstance (Some k) r ∧ comments db !! k = Some r.
Proof.
  unfold objects. rewrite list_elem_of_fmap. split.
  - intros [[k r] [-> Hin]]. exists k, r. split; [done|].
    by apply elem_of_map_to_list.
  - intros (k & r & -> & Hk). exists (k, r). split; [done|].
    by apply elem_of_map_to_list.
Qed.

Lemma NoDup_objects db : NoDup (objects db).
Proof. apply (NoDup_fmap_2 _), NoDup_map_to_list. Qed.

Lemma elem_of_get_queryset db review_id reply_id c :
  c ∈ get_queryset db review_id reply_id ↔
  ∃ k row r, c = mkInstance (Some k) row
    ∧ comments db !! k = Some row
    ∧ (reply_id, k) ∈ file_attachment_comments db
    ∧ reviews db !! reply_id = Some r
    ∧ base_reply_to r = Some review_id.
Proof.
  unfold get_queryset. rewrite list_elem_of_filter, elem_of_objects. split.
  - intros [Hin (k & row & -> & Hk)]. unfold in_review in Hin. simpl in Hin.
    destruct (reviews db !! reply_id) as [r|] eqn:Hr; [|done].
    destruct Hin as [Hm Hb]. by exists k, row, r.
  - intros (k & row & r & -> & Hk & Hm & Hr & Hb). split.
    + unfold in_review. simpl. by rewrite Hr.
    + by exists k, row.
Qed.

Lemma NoDup_get_queryset db review_id reply_id :
  NoDup (get_queryset db review_id reply_id).
Proof. apply NoDup_filter, NoDup_objects. Qed.

(** ** [QuerySet.get] on a list without repetition *)

Lemma q_get_Found l c :
  NoDup l → q_get l = Found c ↔ c ∈ l ∧ ∀ c', c' ∈ l → c' = c.
Proof.
  intros Hnd. destruct l as [|a [|b l]]; simpl.
  - split; [done|]. intros [Hin _]. by apply elem_of_nil in Hin.
  - split.
    + intros [= ->]. split; [apply list_elem_of_here|].
      intros c' Hc'. by apply list_elem_of_singleton in Hc'.
    + intros [Hin _]. apply list_elem_of_singleton in Hin. by subst.
  - split; [done|]. intros [_ Hall]. exfalso.
    assert (a = c) as -> by (apply Hall; apply list_elem_of_here).
    assert (b = c) as -> by (apply Hall; apply list_elem_of_further, list_elem_of_here).
    apply NoDup_cons in Hnd as [Hnotin _]. apply Hnotin. apply list_elem_of_here.
Qed.

Lemma q_get_DoesNotExist l : q_get l = DoesNotExist ↔ ∀ c, c ∉ l.
Proof.
  destruct l as [|a [|b l]]; simpl.
  - split; [|done]. intros _ c. apply not_elem_of_nil.
  - split; [done|]. intros Hno. exfalso. apply (Hno a), list_elem_of_here.
  - split; [done|]. intros Hno. exfalso. apply (Hno a), list_elem_of_here.
Qed.

Lemma q_get_Multiple l :
  q_get l = MultipleObjectsReturned →
  NoDup l → ∃ c1 c2, c1 ≠ c2 ∧ c1 ∈ l ∧ c2 ∈ l.
Proof.
  destruct l as [|a [|b l]]; simpl; [done..|]. intros _ Hnd.
  exists a, b. apply NoDup_cons in Hnd as [Hnotin _]. split.
  - intros ->. apply Hnotin, list_elem_of_here.
  - split; [apply list_elem_of_here|apply list_elem_of_further, list_elem_of_here].
Qed.

(** ** The target comment of [update] *)

Lemma get_object_Found db comment_id kw c :
  get_object db comment_id kw = Found c ↔
  ∃ old r, c = mkInstance (Some comment_id) old
    ∧ comments db !! comment_id = Some old
    ∧ (reply_id kw, comment_id) ∈ file_attachment_comments db
    ∧ reviews db !! reply_id kw = Some r
    ∧ base_reply_to r = Some (review_id kw).
Proof.
  unfold get_object.
  rewrite q_get_Found by apply NoDup_filter, NoDup_get_queryset.
  setoid_rewrite list_elem_of_filter. setoid_rewrite elem_of_get_queryset.
  split.
  - intros [[Hpk (k & row & r & -> & Hk & Hm & Hr & Hb)] _].
    simpl in Hpk. injection Hpk as ->. by exists row, r.
  - intros (old & r & -> & Hk & Hm & Hr & Hb). split.
    + split; [done|]. by exists comment_id, old, r.
    + intros c' [Hpk (k & row & r' & -> & Hk' & _)].
      simpl in Hpk. injection Hpk as ->. congruence.
Qed.

Lemma get_object_not_Multiple db comment_id kw :
  get_object db comment_id kw ≠ MultipleObjectsReturned.
Proof.
  unfold get_object. intros Hm.
  apply q_get_Multiple in Hm as (c1 & c2 & Hne & H1 & H2);
    [|apply NoDup_filter, NoDup_get_queryset].
  apply list_elem_of_filter in H1 as [Hpk1 H1], H2 as [Hpk2 H2].
  apply elem_of_get_queryset in H1 as (k1 & row1 & _ & -> & Hk1 & _).
  apply elem_of_get_queryset in H2 as (k2 & row2 & _ & -> & Hk2 & _).
  simpl in *. injection Hpk1 as ->. injection Hpk2 as ->. congruence.
Qed.

(** ** The list query *)

(** C5: the list query for (review_id, reply_id) lists, once each, exactly
    the stored comments that are in the collection of the review reply_id
    where that review has base_reply_to = review_id; a comment outside that
    collection, or under a reply to another parent review, is not listed. *)
Theorem get_queryset_exact db review_id reply_id :
  NoDup (get_queryset db review_id reply_id)
  ∧ (∀ c, c ∈ get_queryset db review_id reply_id ↔
       ∃ k row r, c = mkInstance (Some k) row
         ∧ comments db !! k = Some row
         ∧ (reply_id, k) ∈ file_attachment_comments db
         ∧ reviews db !! reply_id = Some r
         ∧ base_reply_to r = Some review_id)
  ∧ (∀ k row, (reply_id, k) ∉ file_attachment_comments db →
       mkInstance (Some k) row ∉ get_queryset db review_id reply_id)
  ∧ (∀ c r, reviews db !! reply_id = Some r →
       base_reply_to r ≠ Some review_id →
       c ∉ get_queryset db review_id reply_id).
Proof.
  split; [apply NoDup_get_queryset|].
  split; [apply elem_of_get_queryset|]. split.
  - intros k row Hnot Hin.
    apply elem_of_get_queryset in Hin as (k' & row' & r & Heq & _ & Hm & _).
    injection Heq as <- _. done.
  - intros c r Hr Hne Hin.
    apply elem_of_get_queryset in Hin as (k & row & r' & _ & _ & _ & Hr' & Hb).
    congruence.
Qed.

(** ** What a save leaves in the store *)

Lemma draft_holders_stored db k entry :
  entry ∈ draft_holders db k →
  reviews db !! entry.1 = Some entry.2
  ∧ (entry.1, k) ∈ file_attachment_comments db
  ∧ public entry.2 = false.
Proof.
  unfold draft_holders. intros [[Hin Hdraft] Hentry]%list_elem_of_filter.
  destruct entry as [r review]. by apply elem_of_map_to_list in Hentry.
Qed.


(** Saving reviews with the rows they have in the store only extends the
    log. *)
Lemma foldl_review_save db (l : list (nat * Review)) :
  (∀ entry, entry ∈ l → reviews db !! entry.1 = Some entry.2) →
  review_requests (foldl review_save db l) = review_requests db
  ∧ reviews (foldl review_save db l) = reviews db
  ∧ comments (foldl review_save db l) = comments db
  ∧ file_attachment_comments (foldl review_save db l) = file_attachment_comments db
  ∧ log (foldl review_save db l) = log db ++ (ReviewSaved <$> l.*1).
Proof.
  revert db. induction l as [|entry l IH]; intros db Hl; simpl.
  - by rewrite app_nil_r.
  - assert (reviews (review_save db entry) = reviews db) as Hsame.
    { simpl. apply insert_id, Hl, list_elem_of_here. }
    destruct (IH (review_save db entry)) as (Hrr & Hr & Hc & Hm & Hlog).
    { intros e He. rewrite Hsame. by apply Hl, list_elem_of_further. }
    rewrite Hrr, Hr, Hc, Hm, Hlog, Hsame. simpl.
    by rewrite <- app_assoc.
Qed.

Lemma saved_fields db k r :
  review_requests (saved db k r) = review_requests db
  ∧ reviews (saved db k r) = reviews db
  ∧ comments (saved db k r) = <[k := r]> (comments db)
  ∧ file_attachment_comments (saved db k r) = file_attachment_comments db
  ∧ log (saved db k r)
    = log db ++ CommentSaved k :: (ReviewSaved <$> (draft_holders db k).*1).
Proof.
  unfold saved.
  destruct (foldl_review_save
              (record (set_comments db (<[k := r]> (comments db))) (CommentSaved k))
              (draft_holders db k)) as (Hrr & Hr & Hc & Hm & Hlog).
  { intros entry Hentry. by apply draft_holders_stored in Hentry as [? _]. }
  rewrite Hrr, Hr, Hc, Hm, Hlog. simpl. by rewrite <- app_assoc.
Qed.

Lemma saved_review_requests db k r :
  review_requests (saved db k r) = review_requests db.
Proof. apply saved_fields. Qed.

Lemma saved_reviews db k r : reviews (saved db k r) = reviews db.
Proof. apply saved_fields. Qed.

Lemma saved_comments db k r : comments (saved db k r) = <[k := r]> (comments db).
Proof. apply saved_fields. Qed.

Lemma saved_collections db k r :
  file_attachment_comments (saved db k r) = file_attachment_comments db.
Proof. apply saved_fields. Qed.

Lemma saved_log db k r :
  log (saved db k r)
  = log db ++ CommentSaved k :: (ReviewSaved <$> (draft_holders db k).*1).
Proof. apply saved_fields. Qed.

Section Handlers.

Context `{!Collaborators}.

(** ** Failing lookups and refused callers *)

Lemma create_not_found db request reply_to_id kw :
  review_request_get_object db kw = None ∨ review_reply_get_object db kw = None →
  create db request reply_to_id kw = (DOES_NOT_EXIST, db).
Proof.
  unfold create. intros [-> | Hreply]; [done|].
  rewrite Hreply. by destruct (review_request_get_object db kw).
Qed.

Lemma update_not_found db request comment_id kw :
  review_request_get_object db kw = None
  ∨ review_reply_get_object db kw = None
  ∨ (∀ c, get_object db comment_id kw ≠ Found c) →
  update db request comment_id kw = (DOES_NOT_EXIST, db).
Proof.
  unfold update. intros [-> | [Hreply | Hnone]]; [done| |].
  - rewrite Hreply. by destruct (review_request_get_object db kw).
  - destruct (review_request_get_object db kw); [|done].
    destruct (review_reply_get_object db kw); [|done].
    destruct (get_object db comment_id kw) as [c| |] eqn:Hget; [|done|].
    + by destruct (Hnone c).
    + by destruct (get_object_not_Multiple db comment_id kw).
Qed.

Lemma create_permission_denied db request reply_to_id kw rr reply :
  review_request_get_object db kw = Some rr →
  review_reply_get_object db kw = Some reply →
  has_modify_permissions request reply = false →
  create db request reply_to_id kw = (PERMISSION_DENIED, db).
Proof. unfold create. by intros -> -> ->. Qed.

Lemma update_permission_denied db request comment_id kw rr reply c :
  review_request_get_object db kw = Some rr →
  review_reply_get_object db kw = Some reply →
  get_object db comment_id kw = Found c →
  has_modify_permissions request reply = false →
  update db request comment_id kw = (PERMISSION_DENIED, db).
Proof. unfold update. by intros -> -> -> ->. Qed.

(** C6: when the review request or the reply does not resolve, create
    answers DOES_NOT_EXIST and hands back the store it was given; so does
    update, also when its target comment does not resolve. *)
Theorem missing_entity_not_found db request reply_to_id comment_id kw :
  (review_request_get_object db kw = None
   ∨ review_reply_get_object db kw = None →
   create db request reply_to_id kw = (DOES_NOT_EXIST, db))
  ∧ (review_request_get_object db kw = None
     ∨ review_reply_get_object db kw = None
     ∨ (∀ c, get_object db comment_id kw ≠ Found c) →
     update db request comment_id kw = (DOES_NOT_EXIST, db))
  ∧ http_status DOES_NOT_EXIST = 404.
Proof.
  split; [apply create_not_found|]. split; [apply update_not_found|done].
Qed.

(** C3: with the review request and the reply resolved and the caller
    allowed to modify the reply, a reply_to_id that names no original
    comment makes create answer INVALID_FORM_DATA (400) with the single
    field reply_to_id in its error payload, on an unchanged store. *)
Theorem invalid_reply_to_id db request reply_to_id kw rr reply :
  review_request_get_object db kw = Some rr →
  review_reply_get_object db kw = Some reply →
  has_modify_permissions request reply = true →
  review_file_attachment_comment_get_object db reply_to_id kw = None →
  create db request reply_to_id kw =
    (INVALID_FORM_DATA [("reply_to_id", ["This is not a valid file comment ID"])], db)
  ∧ http_status (create db request reply_to_id kw).1 = 400.
Proof.
  intros Hrr Hreply Hperm Hnone. unfold create.
  by rewrite Hrr, Hreply, Hperm, Hnone.
Qed.

(** C4, as amended: a caller without modify permission on the reply gets
    PERMISSION_DENIED (403) and the store is handed back as it was given,
    from create once the review request and the reply resolve, and from
    update once the target comment resolves as well. *)
Theorem permission_denied_no_mutation db request reply_to_id comment_id kw rr reply :
  review_request_get_object db kw = Some rr →
  review_reply_get_object db kw = Some reply →
  has_modify_permissions request reply = false →
  create db request reply_to_id kw = (PERMISSION_DENIED, db)
  ∧ (∀ c, get_object db comment_id kw = Found c →
       update db request comment_id kw = (PERMISSION_DENIED, db))
  ∧ http_status PERMISSION_DENIED = 403.
Proof.
  intros Hrr Hreply Hperm. split; [by eapply create_permission_denied|].
  split; [|done]. intros c Hc. by eapply update_permission_denied.
Qed.

(** C10: update resolves its target comment before it asks for permission,
    so a target that does not resolve gives DOES_NOT_EXIST whatever the
    permission predicate says; create asks for permission before it looks
    at reply_to_id, so a refused caller gets PERMISSION_DENIED whatever
    reply_to_id is. *)
Theorem lookup_and_permission_order db request reply_to_id comment_id kw :
  ((∀ c, get_object db comment_id kw ≠ Found c) →
   update db request comment_id kw = (DOES_NOT_EXIST, db))
  ∧ (∀ rr reply,
       review_request_get_object db kw = Some rr →
       review_reply_get_object db kw = Some reply →
       has_modify_permissions request reply = false →
       create db request reply_to_id kw = (PERMISSION_DENIED, db)).
Proof.
  split.
  - intros Hnone. apply update_not_found. by right; right.
  - intros rr reply. apply create_permission_denied.
Qed.

(** ** What the lookups of create deliver *)

Lemma review_reply_get_object_Some db kw reply :
  review_reply_get_object db kw = Some reply →
  reply.1 = reply_id kw
  ∧ reviews db !! reply_id kw = Some reply.2
  ∧ base_reply_to reply.2 = Some (review_id kw).
Proof.
  unfold review_reply_get_object.
  destruct (reviews db !! reply_id kw) as [r|]; [|done].
  case_decide as Hr; [|done]. intros [= <-]. simpl. by destruct Hr.
Qed.

Lemma original_comment_Some db reply_to_id kw comment :
  review_file_attachment_comment_get_object db reply_to_id kw = Some comment →
  pk comment = Some reply_to_id
  ∧ comments db !! reply_to_id = Some (row comment).
Proof.
  unfold review_file_attachment_comment_get_object.
  destruct (comments db !! reply_to_id) as [c|]; [|done].
  case_decide; [|done]. by intros [= <-].
Qed.

(** The query of create, [get_queryset] narrowed by
    [Q(reply_to=comment) & Q(review=reply)], lists the stored replies to
    the original comment that the reply holds. *)
Lemma elem_of_reply_query db kw reply comment reply_to_id c :
  review_reply_get_object db kw = Some reply →
  pk comment = Some reply_to_id →
  c ∈ filter (λ c, reply_to (row c) = pk comment ∧ in_collection db reply.1 c)
             (get_queryset db (review_id kw) (reply_id kw)) ↔
  ∃ k old, c = mkInstance (Some k) old
    ∧ comments db !! k = Some old
    ∧ is_reply_for db reply.1 reply_to_id k.
Proof.
  intros (Hpk & Hr & Hb)%review_reply_get_object_Some Hc.
  rewrite list_elem_of_filter, elem_of_get_queryset, Hc, Hpk.
  unfold is_reply_for, in_collection. split.
  - intros [[Hto Hin] (k & old & r & -> & Hk & Hm & _)]. simpl in *.
    exists k, old. by rewrite Hk.
  - intros (k & old & -> & Hk & Hrep). rewrite Hk in Hrep.
    destruct Hrep as [Hto Hm]. simpl. split; [done|].
    by exists k, old, reply.2.
Qed.

Lemma NoDup_reply_query db kw (reply : nat * Review) (comment : Comment) :
  NoDup (filter (λ c, reply_to (row c) = pk comment ∧ in_collection db reply.1 c)
                (get_queryset db (review_id kw) (reply_id kw))).
Proof. apply NoDup_filter, NoDup_get_queryset. Qed.

(** ** The two stores create can leave behind *)

Lemma update_comment_saved db k old kw :
  update_comment db (mkInstance (Some k) old) kw =
    (mkInstance (Some k) (updated_row old kw),
     saved db k (updated_row old kw)).
Proof. done. Qed.

Lemma update_comment_unsaved db new kw :
  update_comment db (mkInstance None new) kw =
    (mkInstance (Some (fresh (dom (comments db)))) (updated_row new kw),
     record (set_comments db
               (<[fresh (dom (comments db)) := updated_row new kw]> (comments db)))
            (CommentSaved (fresh (dom (comments db))))).
Proof. done. Qed.

Lemma fresh_pk_unused db : comments db !! fresh (dom (comments db)) = None.
Proof. apply not_elem_of_dom, is_fresh. Qed.

(** The existing-comment branch. *)
Lemma create_existing db request reply_to_id kw rr reply comment k old :
  review_request_get_object db kw = Some rr →
  review_reply_get_object db kw = Some reply →
  has_modify_permissions request reply = true →
  review_file_attachment_comment_get_object db reply_to_id kw = Some comment →
  one_reply_per_pair db →
  comments db !! k = Some old →
  is_reply_for db reply.1 reply_to_id k →
  create db request reply_to_id kw =
    (Result 303 (mkInstance (Some k) (updated_row old kw))
       [("Location", get_href (mkInstance (Some k) (updated_row old kw)) request kw)],
     saved db k (updated_row old kw)).
Proof.
  intros Hrr Hreply Hperm Hcomment Huniq Hk Hrep. unfold create.
  rewrite Hrr, Hreply, Hperm, Hcomment. simpl negb. cbv zeta.
  destruct (original_comment_Some _ _ _ _ Hcomment) as [Hpk _].
  assert (q_get (filter (λ c, reply_to (row c) = pk comment
                              ∧ in_collection db reply.1 c)
                        (get_queryset db (review_id kw) (reply_id kw)))
          = Found (mkInstance (Some k) old)) as ->.
  { apply q_get_Found; [apply NoDup_reply_query|]. split.
    - apply (elem_of_reply_query _ _ _ _ reply_to_id); [done..|]. by exists k, old.
    - intros c' Hc'.
      apply (elem_of_reply_query _ _ _ _ reply_to_id) in Hc'
        as (k' & old' & -> & Hk' & Hrep'); [|done..].
      assert (k' = k) as -> by (by eapply Huniq). congruence. }
  by rewrite update_comment_saved.
Qed.

(** The new-comment branch. *)
Lemma create_new db request reply_to_id kw rr reply comment :
  review_request_get_object db kw = Some rr →
  review_reply_get_object db kw = Some reply →
  has_modify_permissions request reply = true →
  review_file_attachment_comment_get_object db reply_to_id kw = Some comment →
  (∀ k, ¬ is_reply_for db reply.1 reply_to_id k) →
  create db request reply_to_id kw =
    let k := fresh (dom (comments db)) in
    let new := updated_row (row (model (file_attachment (row comment)) comment)) kw in
    (Result 201 (mkInstance (Some k) new) [],
     review_save
       (collection_add
          (record (set_comments db (<[k := new]> (comments db))) (CommentSaved k))
          reply.1 k)
       reply).
Proof.
  intros Hrr Hreply Hperm Hcomment Hnone. unfold create.
  rewrite Hrr, Hreply, Hperm, Hcomment. simpl negb. cbv zeta.
  destruct (original_comment_Some _ _ _ _ Hcomment) as [Hpk _].
  assert (q_get (filter (λ c, reply_to (row c) = pk comment
                              ∧ in_collection db reply.1 c)
                        (get_queryset db (review_id kw) (reply_id kw)))
          = DoesNotExist) as ->.
  { apply q_get_DoesNotExist. intros c Hc.
    apply (elem_of_reply_query _ _ _ _ reply_to_id) in Hc
      as (k & old & _ & _ & Hrep); [|done..].
    by apply (Hnone k). }
  unfold model. by rewrite update_comment_unsaved.
Qed.

(** Every way create can end: an error on the store as given, the
    existing-comment branch, or the new-comment branch. *)
Lemma create_cases db request reply_to_id kw :
  ((create db request reply_to_id kw).2 = db
   ∧ ∀ status item headers,
       (create db request reply_to_id kw).1 ≠ Result status item headers)
  ∨ (∃ reply k old,
       review_reply_get_object db kw = Some reply
       ∧ comments db !! k = Some old
       ∧ is_reply_for db reply.1 reply_to_id k
       ∧ create db request reply_to_id kw =
           (Result 303 (mkInstance (Some k) (updated_row old kw))
              [("Location",
                get_href (mkInstance (Some k) (updated_row old kw)) request kw)],
            saved db k (updated_row old kw)))
  ∨ (∃ reply comment,
       review_reply_get_object db kw = Some reply
       ∧ review_file_attachment_comment_get_object db reply_to_id kw = Some comment
       ∧ (∀ k, ¬ is_reply_for db reply.1 reply_to_id k)
       ∧ create db request reply_to_id kw =
           let k := fresh (dom (comments db)) in
           let new :=
             updated_row (row (model (file_attachment (row comment)) comment)) kw in
           (Result 201 (mkInstance (Some k) new) [],
            review_save
              (collection_add
                 (record (set_comments db (<[k := new]> (comments db)))
                         (CommentSaved k))
                 reply.1 k)
              reply)).
Proof.
  destruct (review_request_get_object db kw) as [rr|] eqn:Hrr; cycle 1.
  { left. unfold create. by rewrite Hrr. }
  destruct (review_reply_get_object db kw) as [reply|] eqn:Hreply; cycle 1.
  { left. unfold create. by rewrite Hrr, Hreply. }
  destruct (has_modify_permissions request reply) eqn:Hperm; cycle 1.
  { left. unfold create. by rewrite Hrr, Hreply, Hperm. }
  destruct (review_file_attachment_comment_get_object db reply_to_id kw)
    as [comment|] eqn:Hcomment; cycle 1.
  { left. unfold create. by rewrite Hrr, Hreply, Hperm, Hcomment. }
  destruct (original_comment_Some _ _ _ _ Hcomment) as [Hpk _].
  destruct (q_get (filter (λ c, reply_to (row c) = pk comment
                                ∧ in_collection db reply.1 c)
                          (get_queryset db (review_id kw) (reply_id kw))))
    as [c| |] eqn:Hget.
  - right; left. pose proof Hget as Hfound.
    apply q_get_Found in Hfound as [Hin _]; [|apply NoDup_reply_query].
    apply (elem_of_reply_query _ _ _ _ reply_to_id) in Hin
      as (k & old & -> & Hk & Hrep); [|done..].
    exists reply, k, old. repeat split; [done..|].
    unfold create. rewrite Hrr, Hreply, Hperm, Hcomment. simpl negb. cbv zeta.
    by rewrite Hget, update_comment_saved.
  - right; right. exists reply, comment. repeat split; [done..| |].
    + intros k Hrep. unfold is_reply_for in Hrep.
      destruct (comments db !! k) as [old|] eqn:Hk; [|done].
      apply q_get_DoesNotExist with (c := mkInstance (Some k) old) in Hget.
      apply Hget. apply (elem_of_reply_query _ _ _ _ reply_to_id); [done..|].
      exists k, old. repeat split; [done|]. unfold is_reply_for. by rewrite Hk.
    + unfold create. rewrite Hrr, Hreply, Hperm, Hcomment. simpl negb. cbv zeta.
      rewrite Hget. unfold model. by rewrite update_comment_unsaved.
  - left. unfold create. rewrite Hrr, Hreply, Hperm, Hcomment. simpl negb. cbv zeta.
    by rewrite Hget.
Qed.

(** ** The invariant is kept *)

Lemma is_reply_for_in_place db db' k old new review_pk original k' :
  comments db !! k = Some old →
  reply_to new = reply_to old →
  comments db' = <[k := new]> (comments db) →
  file_attachment_comments db' = file_attachment_comments db →
  is_reply_for db' review_pk original k' ↔ is_reply_for db review_pk original k'.
Proof.
  intros Hk Hto Hc Hm. unfold is_reply_for. rewrite Hc, Hm.
  destruct (decide (k = k')) as [<-|Hne].
  - by rewrite lookup_insert_eq, Hk, Hto.
  - by rewrite lookup_insert_ne.
Qed.

Lemma is_reply_for_added db db' k new holder target review_pk original k' :
  collections_stored db →
  comments db !! k = None →
  reply_to new = Some target →
  comments db' = <[k := new]> (comments db) →
  file_attachment_comments db' = {[ (holder, k) ]} ∪ file_attachment_comments db →
  is_reply_for db' review_pk original k' ↔
  (k' = k ∧ review_pk = holder ∧ original = target)
  ∨ is_reply_for db review_pk original k'.
Proof.
  intros Hstored Hk Hto Hc Hm. unfold is_reply_for. rewrite Hc, Hm.
  destruct (decide (k = k')) as [<-|Hne].
  - rewrite lookup_insert_eq, Hk, Hto, elem_of_union, elem_of_singleton. split.
    + intros [[= ->] [[= ->]|Hin]]; [by left|].
      apply Hstored in Hin as [? Hin]. congruence.
    + intros [(_ & -> & ->)|[]]. split; [done|by left].
  - rewrite lookup_insert_ne by done.
    destruct (comments db !! k') as [c|].
    + rewrite elem_of_union, elem_of_singleton. split.
      * intros [Hc' [[= _ ->]|Hin]]; [done|by right].
      * intros [(-> & _)|[Hc' Hin]]; [done|]. split; [done|by right].
    + split; [done|]. by intros [(-> & _)|[]].
Qed.

Lemma consistent_in_place db db' k old new :
  comments db !! k = Some old →
  reply_to new = reply_to old →
  comments db' = <[k := new]> (comments db) →
  file_attachment_comments db' = file_attachment_comments db →
  consistent db → consistent db'.
Proof.
  intros Hk Hto Hc Hm [Hstored Huniq]. split.
  - intros review_pk k' Hin. rewrite Hm in Hin. apply Hstored in Hin.
    rewrite Hc. destruct (decide (k = k')) as [<-|Hne];
      [by rewrite lookup_insert_eq|].
    rewrite lookup_insert_ne; [exact Hin|done].
  - intros review_pk original k1 k2 H1 H2.
    apply (is_reply_for_in_place db _ k old new) in H1; [|done..].
    apply (is_reply_for_in_place db _ k old new) in H2; [|done..].
    by eapply Huniq.
Qed.

Lemma create_consistent db request reply_to_id kw :
  consistent db → consistent (create db request reply_to_id kw).2.
Proof.
  intros [Hstored Huniq].
  destruct (create_cases db request reply_to_id kw)
    as [[-> _]|[(reply & k & old & _ & Hk & _ & ->)
               |(reply & comment & _ & Hcomment & Hnone & ->)]]; [done| |].
  - simpl snd.
    by apply (consistent_in_place db _ k old (updated_row old kw));
      [| |apply saved_comments|apply saved_collections|].
  - destruct (original_comment_Some _ _ _ _ Hcomment) as [Hpk _].
    cbv zeta. unfold model. simpl row.
    pose proof (fresh_pk_unused db) as Hfresh.
    set (k := fresh (dom (comments db))) in *.
    set (new := updated_row _ kw).
    assert (reply_to new = Some reply_to_id) as Hto by exact Hpk.
    split.
    + intros review_pk k' Hin. simpl in *.
      apply elem_of_union in Hin as [[= _ ->]%elem_of_singleton|Hin].
      * by rewrite lookup_insert_eq.
      * apply Hstored in Hin.
        destruct (decide (k = k')) as [<-|Hne]; [by rewrite lookup_insert_eq|].
        rewrite lookup_insert_ne; [exact Hin|done].
    + intros review_pk original k1 k2 H1 H2.
      apply (is_reply_for_added db _ k new reply.1 reply_to_id) in H1; [|done..].
      apply (is_reply_for_added db _ k new reply.1 reply_to_id) in H2; [|done..].
      destruct H1 as [(-> & H1r & H1o)|H1], H2 as [(-> & H2r & H2o)|H2];
        [done|subst..|by eapply Huniq].
      * by destruct (Hnone k2).
      * by destruct (Hnone k1).
Qed.

Lemma create_all_consistent db calls :
  consistent db → consistent (create_all db calls).
Proof.
  revert db. induction calls as [|[[request reply_to_id] kw] calls IH];
    intros db Hdb; simpl; [done|].
  by apply IH, create_consistent.
Qed.

(** ** What update does when it goes through *)

Lemma update_ok db request comment_id kw rr reply old :
  review_request_get_object db kw = Some rr →
  review_reply_get_object db kw = Some reply →
  get_object db comment_id kw = Found (mkInstance (Some comment_id) old) →
  has_modify_permissions request reply = true →
  update db request comment_id kw =
    (Result 200 (mkInstance (Some comment_id) (updated_row old kw)) [],
     saved db comment_id (updated_row old kw)).
Proof.
  intros Hrr Hreply Hget Hperm. unfold update.
  by rewrite Hrr, Hreply, Hget, Hperm.
Qed.

Lemma update_result db request comment_id kw status item headers :
  (update db request comment_id kw).1 = Result status item headers →
  ∃ rr reply old,
    review_request_get_object db kw = Some rr
    ∧ review_reply_get_object db kw = Some reply
    ∧ get_object db comment_id kw = Found (mkInstance (Some comment_id) old)
    ∧ has_modify_permissions request reply = true
    ∧ comments db !! comment_id = Some old.
Proof.
  unfold update.
  destruct (review_request_get_object db kw) as [rr|]; [|done].
  destruct (review_reply_get_object db kw) as [reply|]; [|done].
  destruct (get_object db comment_id kw) as [c| |] eqn:Hget; [|done..].
  destruct (has_modify_permissions request reply) eqn:Hperm; [|done]. intros _.
  destruct (proj1 (get_object_Found _ _ _ _) Hget) as (old & r & -> & Hold & _).
  by exists rr, reply, old.
Qed.


Lemma new_events_app db db' l : log db' = log db ++ l → new_events db db' = l.
Proof. unfold new_events. intros ->. apply drop_app_length. Qed.

(** ** The claims on create *)

(** C1: when the review request and the reply resolve, the caller may
    modify the reply, reply_to_id names an original comment and the reply
    holds no reply to it yet, create answers 201 with a comment that was
    not stored before, carries the file attachment of the original and has
    reply_to set to the original; the comment is stored, added to the
    collection of the reply, and the reply is saved. *)
Theorem create_new_reply db request reply_to_id kw rr reply comment :
  review_request_get_object db kw = Some rr →
  review_reply_get_object db kw = Some reply →
  has_modify_permissions request reply = true →
  review_file_attachment_comment_get_object db reply_to_id kw = Some comment →
  (∀ k, ¬ is_reply_for db reply.1 reply_to_id k) →
  ∃ k new db',
    create db request reply_to_id kw = (Result 201 (mkInstance (Some k) new) [], db')
    ∧ http_status (create db request reply_to_id kw).1 = 201
    ∧ comments db !! k = None
    ∧ file_attachment new = file_attachment (row comment)
    ∧ reply_to new = pk comment
    ∧ pk comment = Some reply_to_id
    ∧ comments db' = <[k := new]> (comments db)
    ∧ file_attachment_comments db' =
        {[ (reply.1, k) ]} ∪ file_attachment_comments db
    ∧ reviews db' = reviews db
    ∧ reviews db' !! reply.1 = Some reply.2
    ∧ new_events db db' =
        [CommentSaved k; CollectionAdded reply.1 k; ReviewSaved reply.1]
    ∧ is_reply_for db' reply.1 reply_to_id k.
Proof.
  intros Hrr Hreply Hperm Hcomment Hnone.
  rewrite (create_new _ _ _ _ _ _ _ Hrr Hreply Hperm Hcomment Hnone). cbv zeta.
  destruct (original_comment_Some _ _ _ _ Hcomment) as [Hpk _].
  destruct (review_reply_get_object_Some _ _ _ Hreply) as (Hid & Hrow & _).
  assert (<[reply.1 := reply.2]> (reviews db) = reviews db) as Hsame.
  { apply insert_id. by rewrite Hid. }
  eexists _, _, _. split; [reflexivity|]. simpl.
  repeat split; try done.
  - apply fresh_pk_unused.
  - rewrite Hsame, Hid. done.
  - apply new_events_app. simpl. by rewrite <- !app_assoc.
  - unfold is_reply_for. simpl. rewrite lookup_insert_eq. simpl.
    split; [done|]. apply elem_of_union_l, elem_of_singleton. done.
Qed.

(** C2: in a store with at most one reply comment per (review, reply_to)
    pair, when the reply already holds a reply comment to the original,
    create stores no second row: it rewrites that comment under its own
    key and answers 303 with the comment and, as Location, the URI of that
    comment; if moreover the collections name stored comments only, every
    sequence of create calls leads to a store with at most one reply
    comment per pair. *)
Theorem create_existing_reply db request reply_to_id kw rr reply comment k old :
  review_request_get_object db kw = Some rr →
  review_reply_get_object db kw = Some reply →
  has_modify_permissions request reply = true →
  review_file_attachment_comment_get_object db reply_to_id kw = Some comment →
  one_reply_per_pair db →
  comments db !! k = Some old →
  reply_to old = pk comment →
  (reply.1, k) ∈ file_attachment_comments db →
  let item := mkInstance (Some k) (updated_row old kw) in
  let db' := (create db request reply_to_id kw).2 in
  (create db request reply_to_id kw).1 =
    Result 303 item [("Location", get_href item request kw)]
  ∧ http_status (create db request reply_to_id kw).1 = 303
  ∧ pk item = Some k
  ∧ comments db' = <[k := row item]> (comments db)
  ∧ dom (comments db') = dom (comments db)
  ∧ reply_to (row item) = pk comment
  ∧ file_attachment_comments db' = file_attachment_comments db
  ∧ (collections_stored db →
     ∀ calls, one_reply_per_pair (create_all db calls)).
Proof.
  intros Hrr Hreply Hperm Hcomment Huniq Hk Hto Hin item db'.
  destruct (original_comment_Some _ _ _ _ Hcomment) as [Hpk _].
  assert (is_reply_for db reply.1 reply_to_id k) as Hrep.
  { unfold is_reply_for. rewrite Hk. split; [congruence|done]. }
  subst db'.
  rewrite (create_existing _ _ _ _ _ _ _ _ _ Hrr Hreply Hperm Hcomment
             Huniq Hk Hrep).
  simpl fst. simpl snd. rewrite saved_comments, saved_collections.
  simpl. repeat split; try done.
  - apply dom_insert_lookup_L. by rewrite Hk.
  - intros Hstored calls. by apply create_all_consistent.
Qed.


(** ** The claims on update *)

(** C8: an update that goes through answers 200 with the target comment
    under its own key, with the same reply_to and the same file attachment
    as before; in the store only the row of that comment is rewritten, and
    the review requests, the reviews and the collections are as they
    were. *)
Theorem update_changes_text_only db request comment_id kw status item headers :
  (update db request comment_id kw).1 = Result status item headers →
  let db' := (update db request comment_id kw).2 in
  ∃ old, comments db !! comment_id = Some old
    ∧ status = 200
    ∧ pk item = Some comment_id
    ∧ reply_to (row item) = reply_to old
    ∧ file_attachment (row item) = file_attachment old
    ∧ comments db' = <[comment_id := row item]> (comments db)
    ∧ (∀ k, k ≠ comment_id → comments db' !! k = comments db !! k)
    ∧ review_requests db' = review_requests db
    ∧ reviews db' = reviews db
    ∧ file_attachment_comments db' = file_attachment_comments db.
Proof.
  intros Hres db'. subst db'.
  destruct (update_result _ _ _ _ _ _ _ Hres)
    as (rr & reply & old & Hrr & Hreply & Hget & Hperm & Hold).
  rewrite (update_ok _ _ _ _ _ _ _ Hrr Hreply Hget Hperm) in Hres |- *.
  simpl in Hres. injection Hres as <- <- <-. simpl fst. simpl snd.
  rewrite saved_comments, saved_review_requests, saved_reviews, saved_collections.
  simpl. exists old. repeat split; try done.
  intros k Hne. by rewrite lookup_insert_ne.
Qed.

End Handlers.

Section Composition.

Context `{!Collaborators}.

(** ** How the handlers compose *)

(** What a 201 or 303 answer of create says about the store it ran on. *)
Lemma create_result_inv db request reply_to_id kw status item headers :
  (create db request reply_to_id kw).1 = Result status item headers →
  ∃ rr reply comment,
    review_request_get_object db kw = Some rr
    ∧ review_reply_get_object db kw = Some reply
    ∧ has_modify_permissions request reply = true
    ∧ review_file_attachment_comment_get_object db reply_to_id kw = Some comment
    ∧ (((∀ k, ¬ is_reply_for db reply.1 reply_to_id k)
        ∧ create db request reply_to_id kw =
            let k := fresh (dom (comments db)) in
            let new :=
              updated_row (row (model (file_attachment (row comment)) comment)) kw in
            (Result 201 (mkInstance (Some k) new) [],
             review_save
               (collection_add
                  (record (set_comments db (<[k := new]> (comments db)))
                          (CommentSaved k))
                  reply.1 k)
               reply))
       ∨ (∃ k old,
            comments db !! k = Some old
            ∧ is_reply_for db reply.1 reply_to_id k
            ∧ create db request reply_to_id kw =
                (Result 303 (mkInstance (Some k) (updated_row old kw))
                   [("Location",
                     get_href (mkInstance (Some k) (updated_row old kw)) request kw)],
                 saved db k (updated_row old kw)))).
Proof.
  intros Hres.
  destruct (review_request_get_object db kw) as [rr|] eqn:Hrr; cycle 1.
  { unfold create in Hres. by rewrite Hrr in Hres. }
  destruct (review_reply_get_object db kw) as [reply|] eqn:Hreply; cycle 1.
  { unfold create in Hres. by rewrite Hrr, Hreply in Hres. }
  destruct (has_modify_permissions request reply) eqn:Hperm; cycle 1.
  { unfold create in Hres. by rewrite Hrr, Hreply, Hperm in Hres. }
  destruct (review_file_attachment_comment_get_object db reply_to_id kw)
    as [comment|] eqn:Hcomment; cycle 1.
  { unfold create in Hres. by rewrite Hrr, Hreply, Hperm, Hcomment in Hres. }
  exists rr, reply, comment. do 4 (split; [done|]).
  destruct (create_cases db request reply_to_id kw)
    as [[_ Herr]|[(reply' & k & old & Hreply' & Hk & Hrep & Heq)
                 |(reply' & comment' & Hreply' & Hcomment' & Hnone & Heq)]].
  - by destruct (Herr _ _ _ Hres).
  - right. assert (reply' = reply) as -> by congruence. by exists k, old.
  - left. assert (reply' = reply) as -> by congruence.
    assert (comment' = comment) as -> by congruence. done.
Qed.

(** The lookups of the path read the review requests and the reviews
    only. *)
Lemma review_request_get_object_frame db db' kw new_text new_type :
  review_requests db' = review_requests db →
  review_request_get_object db' (with_fields kw new_text new_type)
  = review_request_get_object db kw.
Proof. unfold review_request_get_object. simpl. by intros ->. Qed.

Lemma review_reply_get_object_frame db db' kw new_text new_type :
  reviews db' = reviews db →
  review_reply_get_object db' (with_fields kw new_text new_type)
  = review_reply_get_object db kw.
Proof. unfold review_reply_get_object. simpl. by intros ->. Qed.

Lemma get_object_stored db comment_id kw reply old :
  review_reply_get_object db kw = Some reply →
  comments db !! comment_id = Some old →
  (reply_id kw, comment_id) ∈ file_attachment_comments db →
  get_object db comment_id kw = Found (mkInstance (Some comment_id) old).
Proof.
  intros (_ & Hr & Hb)%review_reply_get_object_Some Hold Hin.
  apply get_object_Found. by exists old, reply.2.
Qed.

(** Two different rows in a query set make [get] raise. *)
Lemma q_get_two l c1 c2 :
  NoDup l → c1 ∈ l → c2 ∈ l → c1 ≠ c2 → q_get l = MultipleObjectsReturned.
Proof.
  intros Hnd H1 H2 Hne. destruct (q_get l) as [c| |] eqn:Hget; [| |done].
  - apply q_get_Found in Hget as [_ Hall]; [|done].
    destruct Hne. by rewrite (Hall c1 H1), (Hall c2 H2).
  - by destruct (proj1 (q_get_DoesNotExist l) Hget c1).
Qed.

(** Every way update can end. *)
Lemma update_cases db request comment_id kw :
  update db request comment_id kw = (DOES_NOT_EXIST, db)
  ∨ update db request comment_id kw = (PERMISSION_DENIED, db)
  ∨ ∃ rr reply old,
      review_request_get_object db kw = Some rr
      ∧ review_reply_get_object db kw = Some reply
      ∧ has_modify_permissions request reply = true
      ∧ comments db !! comment_id = Some old
      ∧ (reply_id kw, comment_id) ∈ file_attachment_comments db
      ∧ update db request comment_id kw =
          (Result 200 (mkInstance (Some comment_id) (updated_row old kw)) [],
           saved db comment_id (updated_row old kw)).
Proof.
  destruct (review_request_get_object db kw) as [rr|] eqn:Hrr; cycle 1.
  { left. unfold update. by rewrite Hrr. }
  destruct (review_reply_get_object db kw) as [reply|] eqn:Hreply; cycle 1.
  { left. unfold update. by rewrite Hrr, Hreply. }
  destruct (get_object db comment_id kw) as [c| |] eqn:Hget.
  - destruct (has_modify_permissions request reply) eqn:Hperm; cycle 1.
    { right; left. unfold update. by rewrite Hrr, Hreply, Hget, Hperm. }
    right; right.
    destruct (proj1 (get_object_Found _ _ _ _) Hget)
      as (old & r & -> & Hold & Hin & _).
    exists rr, reply, old. do 5 (split; [done|]). by eapply update_ok.
  - left. unfold update. by rewrite Hrr, Hreply, Hget.
  - by destruct (get_object_not_Multiple db comment_id kw).
Qed.

Lemma update_consistent db request comment_id kw :
  consistent db → consistent (update db request comment_id kw).2.
Proof.
  intros Hdb.
  destruct (update_cases db request comment_id kw)
    as [->|[->|(rr & reply & old & _ & _ & _ & Hold & _ & ->)]]; [done..|].
  simpl snd.
  by apply (consistent_in_place db _ comment_id old (updated_row old kw));
    [| |apply saved_comments|apply saved_collections|].
Qed.

(** ** Further properties of the handlers *)

(** X1: update goes through (200) exactly when the review request and
    the reply resolve, the caller may modify the reply, and the comment is
    stored and held by the reply of the path; a comment the reply does not
    hold, such as one of another reply or of the parent review, gives
    DOES_NOT_EXIST on an unchanged store. *)
Theorem update_reaches_own_reply_only db request comment_id kw :
  ((∃ item headers,
      (update db request comment_id kw).1 = Result 200 item headers) ↔
   ∃ rr reply old,
     review_request_get_object db kw = Some rr
     ∧ review_reply_get_object db kw = Some reply
     ∧ has_modify_permissions request reply = true
     ∧ comments db !! comment_id = Some old
     ∧ (reply_id kw, comment_id) ∈ file_attachment_comments db)
  ∧ ((reply_id kw, comment_id) ∉ file_attachment_comments db →
     update db request comment_id kw = (DOES_NOT_EXIST, db)).
Proof.
  split; [split|].
  - intros (item & headers & Hres).
    destruct (update_cases db request comment_id kw)
      as [Heq|[Heq|(rr & reply & old & Hrr & Hreply & Hperm & Hold & Hin & _)]].
    + by rewrite Heq in Hres.
    + by rewrite Heq in Hres.
    + by exists rr, reply, old.
  - intros (rr & reply & old & Hrr & Hreply & Hperm & Hold & Hin).
    eexists _, _.
    rewrite (update_ok _ _ _ _ rr reply old); [done..| |done].
    by eapply get_object_stored.
  - intros Hout. apply update_not_found. right; right.
    intros c (old & r & _ & _ & Hin & _)%get_object_Found. done.
Qed.

(** X2: when the lookups resolve, the caller may modify the reply, and
    the reply holds two different stored replies to the original, create
    does not pick one of them: get raises MultipleObjectsReturned, which
    the handler for DoesNotExist does not catch, and nothing is written. *)
Theorem create_raises_on_two_replies
    db request reply_to_id kw rr reply comment k1 k2 :
  review_request_get_object db kw = Some rr →
  review_reply_get_object db kw = Some reply →
  has_modify_permissions request reply = true →
  review_file_attachment_comment_get_object db reply_to_id kw = Some comment →
  k1 ≠ k2 →
  is_reply_for db reply.1 reply_to_id k1 →
  is_reply_for db reply.1 reply_to_id k2 →
  create db request reply_to_id kw = (Uncaught "MultipleObjectsReturned", db).
Proof.
  intros Hrr Hreply Hperm Hcomment Hne Hrep1 Hrep2. unfold create.
  rewrite Hrr, Hreply, Hperm, Hcomment. simpl negb. cbv zeta.
  destruct (original_comment_Some _ _ _ _ Hcomment) as [Hpk _].
  unfold is_reply_for in Hrep1, Hrep2.
  destruct (comments db !! k1) as [old1|] eqn:Hk1; [|done].
  destruct (comments db !! k2) as [old2|] eqn:Hk2; [|done].
  rewrite (q_get_two _ (mkInstance (Some k1) old1) (mkInstance (Some k2) old2));
    [done|apply NoDup_reply_query| | |congruence].
  - apply (elem_of_reply_query _ _ _ _ reply_to_id); [done..|].
    exists k1, old1. unfold is_reply_for. by rewrite Hk1.
  - apply (elem_of_reply_query _ _ _ _ reply_to_id); [done..|].
    exists k2, old2. unfold is_reply_for. by rewrite Hk2.
Qed.

(** X3: when the reply already holds the one reply to the original,
    create does what update on that comment does: the same comment is
    returned and the same store is left; only the status (303 against 200)
    and the Location header differ. *)
Theorem create_on_existing_is_update db request reply_to_id kw rr reply comment k :
  review_request_get_object db kw = Some rr →
  review_reply_get_object db kw = Some reply →
  has_modify_permissions request reply = true →
  review_file_attachment_comment_get_object db reply_to_id kw = Some comment →
  one_reply_per_pair db →
  is_reply_for db reply.1 reply_to_id k →
  ∃ item,
    pk item = Some k
    ∧ create db request reply_to_id kw =
        (Result 303 item [("Location", get_href item request kw)],
         (update db request k kw).2)
    ∧ update db request k kw = (Result 200 item [], (update db request k kw).2).
Proof.
  intros Hrr Hreply Hperm Hcomment Huniq Hrep.
  pose proof Hrep as Hrep'. unfold is_reply_for in Hrep'.
  destruct (comments db !! k) as [old|] eqn:Hk; [|done].
  destruct Hrep' as [_ Hin].
  destruct (review_reply_get_object_Some _ _ _ Hreply) as (Hid & _).
  rewrite Hid in Hin.
  exists (mkInstance (Some k) (updated_row old kw)).
  rewrite (update_ok _ _ _ _ rr reply old);
    [|done|done|by eapply get_object_stored|done].
  split; [done|]. split; [|done].
  by rewrite (create_existing _ _ _ _ rr reply comment k old).
Qed.

Lemma original_comment_frame db db' reply_to_id kw comment new_text new_type :
  review_file_attachment_comment_get_object db reply_to_id kw = Some comment →
  comments db' !! reply_to_id = comments db !! reply_to_id →
  file_attachment_comments db ⊆ file_attachment_comments db' →
  review_file_attachment_comment_get_object
    db' reply_to_id (with_fields kw new_text new_type) = Some comment.
Proof.
  unfold review_file_attachment_comment_get_object. simpl. intros Hc -> Hsub.
  destruct (comments db !! reply_to_id) as [c|]; [|done].
  case_decide as Hin; [|done]. rewrite decide_True; [done|]. by apply Hsub.
Qed.

Lemma reply_row_stored db kw reply :
  review_reply_get_object db kw = Some reply →
  <[reply.1 := reply.2]> (reviews db) = reviews db.
Proof.
  intros (Hid & Hrow & _)%review_reply_get_object_Some.
  apply insert_id. by rewrite Hid.
Qed.

(** X4: create never removes or rewrites anything but the comment it
    returns: review requests and reviews are as before, every other
    comment row is as before, no key leaves the comment table, the
    collections only grow, and the one pair that can be new puts the
    returned comment of a 201 answer into the reply of the path; the log
    is extended, and without a 201 or 303 answer the store is the one
    given. *)
Theorem create_frame db request reply_to_id kw :
  let res := create db request reply_to_id kw in
  review_requests res.2 = review_requests db
  ∧ reviews res.2 = reviews db
  ∧ (∀ k, (∀ status item headers,
             res.1 = Result status item headers → pk item ≠ Some k) →
          comments res.2 !! k = comments db !! k)
  ∧ dom (comments db) ⊆ dom (comments res.2)
  ∧ file_attachment_comments db ⊆ file_attachment_comments res.2
  ∧ (∀ r k, (r, k) ∈ file_attachment_comments res.2 →
       (r, k) ∈ file_attachment_comments db
       ∨ (r = reply_id kw
          ∧ ∃ item, res.1 = Result 201 item [] ∧ pk item = Some k))
  ∧ (∃ writes, log res.2 = log db ++ writes)
  ∧ ((∀ status item headers, res.1 ≠ Result status item headers) → res.2 = db).
Proof.
  intros res. subst res.
  destruct (create_cases db request reply_to_id kw)
    as [[Hdb Herr]|[(reply & k & old & _ & Hk & _ & ->)
                   |(reply & comment & Hreply & _ & _ & ->)]].
  - rewrite Hdb. do 6 (split; [done || by left|]).
    split; [|done]. exists []. by rewrite app_nil_r.
  - simpl fst. simpl snd.
    rewrite saved_review_requests, saved_reviews, saved_comments,
      saved_collections, saved_log.
    do 2 (split; [done|]). split.
    { intros k' Hother. rewrite lookup_insert_ne; [done|].
      intros ->. by eapply Hother. }
    split. { rewrite dom_insert_L. set_solver. }
    split; [done|]. split; [by left|].
    split; [by eexists|]. intros Herr. by destruct (Herr _ _ _ eq_refl).
  - cbv zeta. simpl. split; [done|].
    split; [by eapply reply_row_stored|]. split.
    { intros k' Hother. rewrite lookup_insert_ne; [done|].
      intros <-. by eapply Hother. }
    split. { rewrite dom_insert_L. set_solver. }
    split. { set_solver. }
    split.
    { intros r k' [[= -> ->]%elem_of_singleton|Hin]%elem_of_union; [|by left].
      right. split; [by apply review_reply_get_object_Some in Hreply as [? _]|].
      by eexists. }
    split.
    { eexists. by rewrite <- !app_assoc. }
    intros Herr. by destruct (Herr _ _ _ eq_refl).
Qed.

(** X5: on a store that keeps the invariant, a create with text that
    answered 201, followed by a create of the same caller on the same path
    and reply_to_id with a text of its own and any text type, is answered
    303 with the comment the first call stored, under the same key; the
    second call adds no row and no collection entry. *)
Theorem create_again db request reply_to_id kw item headers new_text new_type :
  consistent db →
  is_Some (kw_text kw) →
  (create db request reply_to_id kw).1 = Result 201 item headers →
  let db1 := (create db request reply_to_id kw).2 in
  let kw' := with_fields kw (Some new_text) new_type in
  let again := create db1 request reply_to_id kw' in
  ∃ k, pk item = Some k
    ∧ again.1 =
        Result 303 (mkInstance (Some k) (updated_row (row item) kw'))
          [("Location",
            get_href (mkInstance (Some k) (updated_row (row item) kw')) request kw')]
    ∧ dom (comments again.2) = dom (comments db1)
    ∧ file_attachment_comments again.2 = file_attachment_comments db1.
Proof.
  intros Hdb _ Hres db1 kw' again. subst again db1 kw'.
  pose proof (create_consistent db request reply_to_id kw Hdb) as [_ Huniq1].
  destruct (create_result_inv _ _ _ _ _ _ _ Hres)
    as (rr & reply & comment & Hrr & Hreply & Hperm & Hcomment
        & [[Hnone Heq]|(k & old & _ & _ & Heq)]); cycle 1.
  { rewrite Heq in Hres. done. }
  destruct (original_comment_Some _ _ _ _ Hcomment) as [Hpk Horig].
  rewrite Heq in Hres, Huniq1 |- *. cbv zeta in *. simpl in Hres.
  injection Hres as <- <-. simpl fst. simpl snd. simpl pk. simpl row.
  pose proof (fresh_pk_unused db) as Hfresh.
  set (k := fresh (dom (comments db))) in *.
  set (new := updated_row _ kw) in *.
  set (db1 := review_save _ reply) in *.
  set (kw' := with_fields kw (Some new_text) new_type).
  assert (k ≠ reply_to_id) as Hne by (intros ->; congruence).
  assert (comments db1 !! k = Some new) as Hk by (simpl; apply lookup_insert_eq).
  assert (is_reply_for db1 reply.1 reply_to_id k) as Hrep.
  { unfold is_reply_for. rewrite Hk. split; [exact Hpk|]. simpl. set_solver. }
  assert (review_request_get_object db1 kw' = Some rr) as Hrr1
    by (by unfold kw'; rewrite (review_request_get_object_frame db)).
  assert (review_reply_get_object db1 kw' = Some reply) as Hreply1.
  { unfold kw'. rewrite (review_reply_get_object_frame db); [done|].
    simpl. by apply (reply_row_stored db kw). }
  assert (review_file_attachment_comment_get_object db1 reply_to_id kw'
          = Some comment) as Hcomment1.
  { apply (original_comment_frame db); [done| |simpl; set_solver].
    simpl. by rewrite lookup_insert_ne. }
  pose proof (create_existing db1 request reply_to_id kw' rr reply comment k new
                Hrr1 Hreply1 Hperm Hcomment1 Huniq1 Hk Hrep) as Heq1.
  exists k. split; [done|]. rewrite Heq1. simpl fst. simpl snd.
  rewrite saved_comments, saved_collections.
  split; [done|]. split; [|done].
  apply dom_insert_lookup_L. by rewrite Hk.
Qed.

(** X6: a comment that create returned, with 201 or 303, is stored under
    its key, is listed by the list query of the path, and an update of the
    same caller on that path and key goes through. *)
Theorem created_comment_can_be_updated
    db request reply_to_id kw status item headers new_text new_type :
  (create db request reply_to_id kw).1 = Result status item headers →
  let db1 := (create db request reply_to_id kw).2 in
  let kw' := with_fields kw new_text new_type in
  ∃ k, pk item = Some k
    ∧ comments db1 !! k = Some (row item)
    ∧ item ∈ get_queryset db1 (review_id kw) (reply_id kw)
    ∧ update db1 request k kw' =
        (Result 200 (mkInstance (Some k) (updated_row (row item) kw')) [],
         saved db1 k (updated_row (row item) kw')).
Proof.
  intros Hres db1 kw'. subst db1.
  destruct (create_result_inv _ _ _ _ _ _ _ Hres)
    as (rr & reply & comment & Hrr & Hreply & Hperm & Hcomment & Hcase).
  destruct (review_reply_get_object_Some _ _ _ Hreply) as (Hid & Hrow & Hbase).
  assert (∀ db1 k new,
            review_requests db1 = review_requests db →
            reviews db1 = reviews db →
            comments db1 !! k = Some new →
            (reply_id kw, k) ∈ file_attachment_comments db1 →
            mkInstance (Some k) new ∈ get_queryset db1 (review_id kw) (reply_id kw)
            ∧ update db1 request k kw' =
                (Result 200 (mkInstance (Some k) (updated_row new kw')) [],
                 saved db1 k (updated_row new kw'))) as Hgo.
  { intros db1 k new Hrrs Hrevs Hk Hin. split.
    - apply elem_of_get_queryset. exists k, new, reply.2.
      by rewrite Hrevs.
    - assert (review_reply_get_object db1 kw' = Some reply) as Hreply1
        by (by unfold kw'; rewrite (review_reply_get_object_frame db)).
      apply (update_ok _ _ _ _ rr reply); [|done| |done].
      + by unfold kw'; rewrite (review_request_get_object_frame db).
      + by apply (get_object_stored _ _ _ reply). }
  destruct Hcase as [[_ Heq]|(k & old & Hk & Hrep & Heq)].
  - rewrite Heq in Hres |- *. cbv zeta in *. simpl in Hres.
    injection Hres as <- <- <-. simpl fst. simpl snd.
    eexists. split; [done|]. simpl pk. simpl row.
    assert (comments
              (review_save
                 (collection_add
                    (record
                       (set_comments db
                          (<[fresh (dom (comments db)) :=
                               updated_row
                                 (row (model (file_attachment (row comment)) comment))
                                 kw]> (comments db)))
                       (CommentSaved (fresh (dom (comments db)))))
                    reply.1 (fresh (dom (comments db)))) reply)
            !! fresh (dom (comments db))
            = Some (updated_row
                      (row (model (file_attachment (row comment)) comment)) kw))
      as Hstored by (simpl; apply lookup_insert_eq).
    split; [exact Hstored|].
    apply Hgo; [done|simpl; by apply (reply_row_stored db kw)|exact Hstored|].
    simpl. rewrite <- Hid. by apply elem_of_union_l, elem_of_singleton.
  - rewrite Heq in Hres |- *. simpl in Hres.
    injection Hres as <- <- <-. simpl fst. simpl snd.
    exists k. split; [done|]. simpl pk. simpl row.
    assert (comments (saved db k (updated_row old kw)) !! k
            = Some (updated_row old kw))
      as Hstored by (rewrite saved_comments; apply lookup_insert_eq).
    split; [exact Hstored|].
    apply Hgo; [apply saved_review_requests|apply saved_reviews|exact Hstored|].
    rewrite saved_collections. unfold is_reply_for in Hrep. rewrite Hk in Hrep.
    rewrite <- Hid. by destruct Hrep.
Qed.

Lemma call_consistent db c :
  consistent db → consistent (call db c).2.
Proof.
  intros Hdb. destruct c as [request reply_to_id kw|request comment_id kw]; simpl.
  - by apply create_consistent.
  - by apply update_consistent.
Qed.

(** X7: from a store where every collection names stored comments and
    every (review, reply_to) pair has at most one reply comment, any
    sequence of update calls and of create calls that carry their
    required text leaves such a store. *)
Theorem run_keeps_invariant db calls :
  Forall has_required_fields calls →
  consistent db →
  consistent (run db calls).2.
Proof.
  intros _. revert db. induction calls as [|c calls IH]; intros db Hdb; simpl.
  - done.
  - pose proof (call_consistent db c Hdb) as Hdb1.
    destruct (call db c) as [answer db1]. simpl in *.
    specialize (IH db1 Hdb1).
    by destruct (run db1 calls) as [answers db2].
Qed.

(** Rewriting a stored row in place does not change which keys a list
    query shows. *)
Lemma listed_in_place db db' k0 old new review_id' reply_id' k :
  comments db !! k0 = Some old →
  comments db' = <[k0 := new]> (comments db) →
  reviews db' = reviews db →
  file_attachment_comments db' = file_attachment_comments db →
  (∃ row, mkInstance (Some k) row ∈ get_queryset db' review_id' reply_id')
  ↔ (∃ row, mkInstance (Some k) row ∈ get_queryset db review_id' reply_id').
Proof.
  intros Hold Hc Hr Hm. split.
  - intros (row & (k' & row' & r & [= <- <-] & Hk & Hin & Hrev & Hb)%elem_of_get_queryset).
    rewrite Hc in Hk. rewrite Hm in Hin. rewrite Hr in Hrev.
    destruct (decide (k0 = k)) as [->|Hne].
    + exists old. apply elem_of_get_queryset. by exists k, old, r.
    + rewrite lookup_insert_ne in Hk by done.
      exists row. apply elem_of_get_queryset. by exists k, row, r.
  - intros (row & (k' & row' & r & [= <- <-] & Hk & Hin & Hrev & Hb)%elem_of_get_queryset).
    destruct (decide (k0 = k)) as [->|Hne].
    + exists new. apply elem_of_get_queryset.
      exists k, new, r. rewrite Hc, Hm, Hr. by rewrite lookup_insert_eq.
    + exists row. apply elem_of_get_queryset.
      exists k, row, r. rewrite Hc, Hm, Hr. by rewrite lookup_insert_ne.
Qed.

(** X8: update never changes which keys a list query shows, for any
    path: a key is listed after the call exactly when it was listed
    before. *)
Theorem update_keeps_listings db request comment_id kw review_id' reply_id' k :
  (∃ row, mkInstance (Some k) row
          ∈ get_queryset (update db request comment_id kw).2 review_id' reply_id')
  ↔ (∃ row, mkInstance (Some k) row ∈ get_queryset db review_id' reply_id').
Proof.
  destruct (update_cases db request comment_id kw)
    as [->|[->|(rr & reply & old & _ & _ & _ & Hold & _ & ->)]]; [done..|].
  simpl snd.
  by apply (listed_in_place db _ comment_id old (updated_row old kw));
    [|apply saved_comments|apply saved_reviews|apply saved_collections].
Qed.

(** X9: on a store whose collections name stored comments only, create
    changes the list queries in one place: a key is listed for a path
    after the call exactly when it was listed before, or the call
    answered 201 with the comment of that key and the path is the path
    of the call. *)
Theorem create_lists_new_comment_once db request reply_to_id kw review_id' reply_id' k :
  collections_stored db →
  let res := create db request reply_to_id kw in
  (∃ row, mkInstance (Some k) row ∈ get_queryset res.2 review_id' reply_id')
  ↔ (∃ row, mkInstance (Some k) row ∈ get_queryset db review_id' reply_id')
    ∨ (review_id' = review_id kw ∧ reply_id' = reply_id kw
       ∧ ∃ item, res.1 = Result 201 item [] ∧ pk item = Some k).
Proof.
  intros Hstored res. subst res.
  destruct (create_cases db request reply_to_id kw)
    as [[Hdb Herr]|[(reply & k0 & old & _ & Hk0 & _ & ->)
                   |(reply & comment & Hreply & _ & _ & ->)]].
  - rewrite Hdb. split; [by left|].
    intros [Hin|(_ & _ & item & Hres & _)]; [done|]. by destruct (Herr _ _ _ Hres).
  - simpl fst. simpl snd.
    rewrite (listed_in_place db _ k0 old (updated_row old kw));
      [|done|apply saved_comments|apply saved_reviews|apply saved_collections].
    split; [by left|]. by intros [Hin|(_ & _ & item & Hres & _)].
  - destruct (review_reply_get_object_Some _ _ _ Hreply) as (Hid & Hrow & Hbase).
    pose proof (reply_row_stored _ _ _ Hreply) as Hsame.
    pose proof (fresh_pk_unused db) as Hfresh.
    cbv zeta. unfold model. simpl row.
    set (kf := fresh (dom (comments db))) in *.
    set (new := updated_row _ kw).
    simpl fst. simpl snd. split.
    + intros (row & (k' & row' & r & [= <- <-] & Hk & Hin & Hr & Hb)%elem_of_get_queryset).
      simpl in Hk, Hin, Hr. rewrite Hsame in Hr.
      apply elem_of_union in Hin as [[= -> ->]%elem_of_singleton|Hin].
      * right. rewrite Hid in Hr. split; [congruence|]. split; [done|].
        by eexists.
      * left. assert (kf ≠ k) as Hne.
        { intros <-. apply Hstored in Hin as [? Hin]. congruence. }
        rewrite lookup_insert_ne in Hk by done.
        exists row. apply elem_of_get_queryset. by exists k, row, r.
    + intros [(row & (k' & row' & r & [= <- <-] & Hk & Hin & Hr & Hb)%elem_of_get_queryset)
             |(-> & -> & item & [= <-] & [= <-])].
      * assert (kf ≠ k) as Hne by (intros <-; congruence).
        exists row. apply elem_of_get_queryset. exists k, row, r. simpl.
        rewrite lookup_insert_ne by done. rewrite Hsame.
        repeat split; [done| |done..]. by apply elem_of_union_r.
      * exists new. apply elem_of_get_queryset. exists kf, new, reply.2. simpl.
        rewrite lookup_insert_eq, Hsame, <- Hid.
        repeat split; [|by rewrite Hid|done].
        by apply elem_of_union_l, elem_of_singleton.
Qed.

End Composition.

(** ** The field table *)

(** X10: the field table of the resource holds every entry of the base
    table as the base gives it, and always has reply_to; the definition
    of reply_to given here is the one in force unless the base table has
    an entry of that name, which then wins. *)
Theorem fields_extend_base (base : gmap string FieldInfo) :
  (∀ name info, base !! name = Some info → fields base !! name = Some info)
  ∧ dom (fields base) = dom base ∪ {[ "reply_to" ]}
  ∧ (∀ name, name ≠ "reply_to" → fields base !! name = base !! name)
  ∧ (base !! "reply_to" = None →
     fields base !! "reply_to"
     = Some (mkField "ReviewFileAttachmentCommentResource"
                     "The comment being replied to.")).
Proof.
  unfold fields. split; [|split; [|split]].
  - intros name info Hname. by apply lookup_union_Some_l.
  - by rewrite dom_union_L, dom_singleton_L.
  - intros name Hne. rewrite lookup_union_l; [done|].
    by rewrite lookup_singleton_ne.
  - intros Hnone. rewrite lookup_union_r; [|done].
    by rewrite lookup_singleton_eq.
Qed.

(** ** The concrete collaborators and stores *)

Lemma db0_no_reply k : ¬ is_reply_for db0 3 7 k.
Proof.
  unfold is_reply_for. simpl.
  destruct (decide (k = 7)) as [->|Hne].
  - rewrite lookup_singleton_eq. by intros [? _].
  - rewrite lookup_singleton_ne by lia. tauto.
Qed.

Lemma db1_comments k c :
  comments db1 !! k = Some c →
  (k = 7 ∧ c = row original7) ∨ (k = 8 ∧ c = answer8).
Proof.
  simpl. intros [[<- <-]|[_ Hk]]%lookup_insert_Some; [by left|].
  apply lookup_singleton_Some in Hk as [<- <-]. by right.
Qed.

Lemma db1_consistent : consistent db1.
Proof.
  split.
  - intros review_pk k Hin. simpl in Hin.
    apply elem_of_union in Hin as [[= _ ->]%elem_of_singleton
                                  |[= _ ->]%elem_of_singleton]; by eexists.
  - intros review_pk original k1 k2. unfold is_reply_for.
    destruct (comments db1 !! k1) as [c1|] eqn:H1; [|done].
    destruct (comments db1 !! k2) as [c2|] eqn:H2; [|done].
    apply db1_comments in H1 as [[-> ->]|[-> ->]];
      apply db1_comments in H2 as [[-> ->]|[-> ->]]; simpl; by intros [? _] [? _].
Qed.

(** ** The claims at the concrete stores *)

#[local] Existing Instance draft_owner.

(** The first create on [db0] stores the answer under key 8 and leaves
    [db1]; the same call again is redirected to that comment. *)
Example create_then_create_again :
  create db0 owner 7 kw0 = (Result 201 (mkInstance (Some 8) answer8) [], db1)
  ∧ (create db1 owner 7 kw0).1 =
      Result 303 (mkInstance (Some 8) answer8)
        [("Location",
          "/api/review-requests/1/reviews/2/replies/3/file-attachment-comments/8/")].
Proof. split; vm_compute; reflexivity. Qed.

(** With two answers to the same comment in the reply, [QuerySet.get]
    raises and create does not catch it. *)
Example create_on_two_answers :
  create db_twice owner 7 kw0 = (Uncaught "MultipleObjectsReturned", db_twice).
Proof. vm_compute. reflexivity. Qed.

(** The list query on the reply 3 to review 2 holds the answer 8 and not
    the original comment 7. *)
Lemma get_queryset_exact_witness :
  mkInstance (Some 8) answer8 ∈ get_queryset db1 2 3
  ∧ original7 ∉ get_queryset db1 2 3.
Proof.
  destruct (get_queryset_exact db1 2 3) as (_ & Hin & Hout & _). split.
  - apply Hin. exists 8, answer8, reply3.2. vm_compute. repeat split.
  - apply (Hout 7). intros Hc. vm_compute in Hc. discriminate.
Defined.

Lemma missing_entity_not_found_witness :
  review_request_get_object db0 kw_elsewhere = None
  ∧ create db0 owner 7 kw_elsewhere = (DOES_NOT_EXIST, db0)
  ∧ get_object db1 99 kw0 = DoesNotExist
  ∧ update db1 owner 99 kw0 = (DOES_NOT_EXIST, db1).
Proof.
  split; [vm_compute; reflexivity|]. split.
  - apply (missing_entity_not_found db0 owner 7 99 kw_elsewhere).
    left. vm_compute. reflexivity.
  - split; [vm_compute; reflexivity|].
    apply (missing_entity_not_found db1 owner 7 99 kw0).
    right; right. intros c. vm_compute. discriminate.
Defined.

Lemma invalid_reply_to_id_witness :
  review_file_attachment_comment_get_object db0 99 kw0 = None
  ∧ http_status (create db0 owner 99 kw0).1 = 400.
Proof.
  split; [vm_compute; reflexivity|].
  apply (invalid_reply_to_id db0 owner 99 kw0 1 reply3); vm_compute; reflexivity.
Defined.

(** C4, as stated, fails on update: the reply resolves, the caller has no
    modify permission on it, the target comment 99 does not resolve, and
    the answer is DOES_NOT_EXIST (404). *)
Lemma permission_denied_counterexample :
  review_request_get_object db1 kw0 = Some 1
  ∧ review_reply_get_object db1 kw0 = Some reply3
  ∧ has_modify_permissions stranger reply3 = false
  ∧ (update db1 stranger 99 kw0).1 = DOES_NOT_EXIST
  ∧ (update db1 stranger 99 kw0).1 ≠ PERMISSION_DENIED
  ∧ http_status (update db1 stranger 99 kw0).1 ≠ 403.
Proof. vm_compute. repeat split; discriminate. Qed.

Lemma permission_denied_no_mutation_witness :
  has_modify_permissions stranger reply3 = false
  ∧ create db1 stranger 7 kw0 = (PERMISSION_DENIED, db1)
  ∧ update db1 stranger 8 kw0 = (PERMISSION_DENIED, db1).
Proof.
  split; [reflexivity|].
  destruct (permission_denied_no_mutation db1 stranger 7 8 kw0 1 reply3)
    as (Hcreate & Hupdate & _); [vm_compute; reflexivity..|].
  split; [exact Hcreate|].
  apply (Hupdate (mkInstance (Some 8) answer8)). vm_compute. reflexivity.
Defined.

Lemma lookup_and_permission_order_witness :
  has_modify_permissions stranger reply3 = false
  ∧ update db1 stranger 99 kw0 = (DOES_NOT_EXIST, db1)
  ∧ review_file_attachment_comment_get_object db1 99 kw0 = None
  ∧ create db1 stranger 99 kw0 = (PERMISSION_DENIED, db1).
Proof.
  destruct (lookup_and_permission_order db1 stranger 99 99 kw0)
    as [Hupdate Hcreate].
  split; [reflexivity|]. split.
  - apply Hupdate. intros c. vm_compute. discriminate.
  - split; [vm_compute; reflexivity|].
    apply (Hcreate 1 reply3); vm_compute; reflexivity.
Defined.

Lemma create_new_reply_witness :
  review_request_get_object db0 kw0 = Some 1
  ∧ review_reply_get_object db0 kw0 = Some reply3
  ∧ has_modify_permissions owner reply3 = true
  ∧ review_file_attachment_comment_get_object db0 7 kw0 = Some original7
  ∧ http_status (create db0 owner 7 kw0).1 = 201.
Proof.
  repeat (split; [vm_compute; reflexivity|]).
  destruct (create_new_reply db0 owner 7 kw0 1 reply3 original7)
    as (k & new & db' & _ & Hstatus & _);
    [vm_compute; reflexivity..|apply db0_no_reply|exact Hstatus].
Defined.

Lemma create_existing_reply_witness :
  comments db1 !! 8 = Some answer8
  ∧ (reply3.1, 8) ∈ file_attachment_comments db1
  ∧ http_status (create db1 owner 7 kw0).1 = 303
  ∧ dom (comments (create db1 owner 7 kw0).2) = dom (comments db1)
  ∧ one_reply_per_pair
      (create_all db1 [(owner, 7, kw0); (owner, 7, kw_markdown)]).
Proof.
  assert ((reply3.1, 8) ∈ file_attachment_comments db1) as Hin.
  { vm_compute. reflexivity. }
  split; [vm_compute; reflexivity|]. split; [exact Hin|].
  destruct (create_existing_reply db1 owner 7 kw0 1 reply3 original7 8 answer8)
    as (_ & Hstatus & _ & _ & Hdom & _ & _ & Hall);
    [vm_compute; reflexivity..|apply db1_consistent
    |vm_compute; reflexivity|reflexivity|exact Hin|].
  split; [exact Hstatus|]. split; [exact Hdom|].
  apply Hall, db1_consistent.
Defined.



Lemma update_changes_text_only_witness :
  ∃ item, (update db1 owner 8 kw_markdown).1 = Result 200 item []
    ∧ reply_to (row item) = Some 7
    ∧ file_attachment (row item) = 4
    ∧ comments (update db1 owner 8 kw_markdown).2 !! 7 = comments db1 !! 7.
Proof.
  exists (mkInstance (Some 8) (mkComment 4 (Some 7) "agreed \*here\*" Markdown)).
  assert ((update db1 owner 8 kw_markdown).1 =
          Result 200
            (mkInstance (Some 8) (mkComment 4 (Some 7) "agreed \*here\*" Markdown))
            []) as Hres by (vm_compute; reflexivity).
  split; [exact Hres|].
  destruct (update_changes_text_only db1 owner 8 kw_markdown _ _ _ Hres)
    as (old & Hold & _ & _ & Hto & Hfile & _ & Hothers & _).
  assert (old = answer8) as ->.
  { assert (comments db1 !! 8 = Some answer8) as Hk by (vm_compute; reflexivity).
    congruence. }
  split; [exact Hto|]. split; [exact Hfile|]. apply Hothers. lia.
Defined.


(** ** The further properties at the concrete stores *)

Lemma db0_consistent : consistent db0.
Proof.
  split.
  - intros review_pk k Hin. simpl in Hin.
    apply elem_of_singleton in Hin as [= _ ->]. by eexists.
  - intros review_pk original k1 k2 H1 _. unfold is_reply_for in H1. simpl in H1.
    destruct (decide (k1 = 7)) as [->|Hne].
    + rewrite lookup_singleton_eq in H1. by destruct H1.
    + by rewrite lookup_singleton_ne in H1 by lia.
Qed.

(** The original comment 7 is held by the parent review, not by the reply
    3: update on the path of the reply does not reach it, while the answer
    8 is reached. *)
Lemma update_reaches_own_reply_only_witness :
  update db1 owner 7 kw0 = (DOES_NOT_EXIST, db1)
  ∧ ∃ item headers, (update db1 owner 8 kw0).1 = Result 200 item headers.
Proof.
  split.
  - apply (update_reaches_own_reply_only db1 owner 7 kw0).
    intros Hin. vm_compute in Hin. discriminate.
  - apply (update_reaches_own_reply_only db1 owner 8 kw0).
    exists 1, reply3, answer8. repeat split; vm_compute; reflexivity.
Defined.

Lemma create_raises_on_two_replies_witness :
  is_reply_for db_twice reply3.1 7 8
  ∧ is_reply_for db_twice reply3.1 7 9
  ∧ create db_twice owner 7 kw0 = (Uncaught "MultipleObjectsReturned", db_twice).
Proof.
  assert (is_reply_for db_twice reply3.1 7 8) as Hrep8
    by (vm_compute; split; reflexivity).
  assert (is_reply_for db_twice reply3.1 7 9) as Hrep9
    by (vm_compute; split; reflexivity).
  split; [exact Hrep8|]. split; [exact Hrep9|].
  apply (create_raises_on_two_replies db_twice owner 7 kw0 1 reply3 original7 8 9);
    [vm_compute; reflexivity..|lia|exact Hrep8|exact Hrep9].
Defined.

Lemma create_on_existing_is_update_witness :
  is_reply_for db1 reply3.1 7 8
  ∧ (create db1 owner 7 kw0).2 = (update db1 owner 8 kw0).2.
Proof.
  assert (is_reply_for db1 reply3.1 7 8) as Hrep.
  { vm_compute. split; reflexivity. }
  split; [exact Hrep|].
  destruct (create_on_existing_is_update db1 owner 7 kw0 1 reply3 original7 8)
    as (item & _ & Hcreate & _);
    [vm_compute; reflexivity..|apply db1_consistent|exact Hrep|].
  by rewrite Hcreate.
Defined.

(** The comment replied to is as it was after a create that rewrote the
    answer. *)
Lemma create_frame_witness :
  comments (create db1 owner 7 kw0).2 !! 7 = comments db1 !! 7
  ∧ reviews (create db0 owner 7 kw0).2 = reviews db0.
Proof.
  destruct (create_frame db1 owner 7 kw0) as (_ & _ & Hothers & _).
  destruct (create_frame db0 owner 7 kw0) as (_ & Hreviews & _).
  split; [|exact Hreviews].
  apply Hothers. intros status item headers Hres.
  vm_compute in Hres. injection Hres as _ <- _. simpl. congruence.
Defined.

Lemma create_again_witness :
  ∃ k, (create (create db0 owner 7 kw0).2 owner 7
               (with_fields kw0 (Some "agreed") (Some Markdown))).1
       = Result 303
           (mkInstance (Some k)
              (updated_row answer8 (with_fields kw0 (Some "agreed") (Some Markdown))))
           [("Location",
             get_href (mkInstance (Some k)
                         (updated_row answer8
                            (with_fields kw0 (Some "agreed") (Some Markdown))))
                      owner (with_fields kw0 (Some "agreed") (Some Markdown)))].
Proof.
  destruct (create_again db0 owner 7 kw0 (mkInstance (Some 8) answer8) []
              "agreed" (Some Markdown))
    as (k & _ & Hagain & _);
    [apply db0_consistent|by eexists|vm_compute; reflexivity|].
  exists k. exact Hagain.
Defined.

Lemma created_comment_can_be_updated_witness :
  ∃ k, comments (create db0 owner 7 kw0).2 !! k = Some answer8
    ∧ (update (create db0 owner 7 kw0).2 owner k
              (with_fields kw0 None (Some Markdown))).1
      = Result 200
          (mkInstance (Some k)
             (updated_row answer8 (with_fields kw0 None (Some Markdown)))) [].
Proof.
  destruct (created_comment_can_be_updated db0 owner 7 kw0 201
              (mkInstance (Some 8) answer8) [] None (Some Markdown))
    as (k & _ & Hstored & _ & Hupdate); [vm_compute; reflexivity|].
  exists k. split; [exact Hstored|]. by rewrite Hupdate.
Defined.

Lemma run_keeps_invariant_witness :
  one_reply_per_pair
    (run db0 [Create owner 7 kw0; Update owner 8 kw_markdown;
              Create owner 7 (with_fields kw0 (Some "agreed") (Some Markdown));
              Update stranger 8 kw0; Create stranger 7 kw0]).2.
Proof.
  apply (run_keeps_invariant db0
           [Create owner 7 kw0; Update owner 8 kw_markdown;
            Create owner 7 (with_fields kw0 (Some "agreed") (Some Markdown));
            Update stranger 8 kw0; Create stranger 7 kw0]).
  - repeat constructor; simpl; by eexists.
  - apply db0_consistent.
Defined.

(** After the first create on [db0] the answer 8 is listed for the path
    of the call, and it is not listed for a path through review 5. *)
Lemma create_lists_new_comment_once_witness :
  (∃ row, mkInstance (Some 8) row ∈ get_queryset (create db0 owner 7 kw0).2 2 3)
  ∧ ¬ (∃ row, mkInstance (Some 8) row
              ∈ get_queryset (create db0 owner 7 kw0).2 5 3).
Proof.
  split.
  - apply (create_lists_new_comment_once db0 owner 7 kw0 2 3 8);
      [apply db0_consistent|].
    right. repeat split. exists (mkInstance (Some 8) answer8).
    split; vm_compute; reflexivity.
  - intros Hin.
    apply (create_lists_new_comment_once db0 owner 7 kw0 5 3 8) in Hin;
      [|apply db0_consistent].
    destruct Hin as [(row & Hin)|(Hpath & _)]; [|discriminate].
    apply elem_of_get_queryset in Hin as (k & row' & r & _ & _ & _ & Hr & Hb).
    vm_compute in Hr. injection Hr as <-. discriminate Hb.
Defined.

(** With a base table of two entries, the resource has three. *)
Lemma fields_extend_base_witness :
  fields {[ "id" := mkField "int" "The numeric ID of the comment.";
            "text" := mkField "str" "The comment text." ]} !! "reply_to"
  = Some (mkField "ReviewFileAttachmentCommentResource"
                  "The comment being replied to.")
  ∧ fields {[ "id" := mkField "int" "The numeric ID of the comment.";
              "text" := mkField "str" "The comment text." ]} !! "text"
    = Some (mkField "str" "The comment text.").
Proof.
  destruct (fields_extend_base
              {[ "id" := mkField "int" "The numeric ID of the comment.";
                 "text" := mkField "str" "The comment text." ]})
    as (Hbase & _ & _ & Hreply).
  split.
  - apply Hreply. vm_compute. reflexivity.
  - apply Hbase. vm_compute. reflexivity.
Defined.

